(** * FemCare chat session controller

    A shallow embedding of the client-side chat component
    ([OllamaChatInterface]), the Ollama health route ([GET]) and the
    status panel ([ApiStatus]), together with the properties of the
    session logic that hold (or fail) on that code. *)

From Stdlib Require Import ZArith NArith List Bool Lia String Ascii.
From Stdlib Require Import DecimalString DecimalZ DecimalN Sorted.
Import ListNotations.

Open Scope Z_scope.

(* ================================================================== *)
(** * JavaScript values used by the component *)

Module JS.

(** A JavaScript string is a sequence of UTF-16 code units. *)
Definition jsstring := list N.

(** An ASCII literal of the source as a sequence of code units. *)
Fixpoint lit (s : string) : jsstring :=
  match s with
  | EmptyString => []
  | String a r => N_of_ascii a :: lit r
  end.

Definition jsstring_eqb (a b : jsstring) : bool :=
  if list_eq_dec N.eq_dec a b then true else false.

(** Truthiness of a string: every string but the empty one. *)
Definition truthy (s : jsstring) : bool :=
  match s with [] => false | _ :: _ => true end.

(** Nullable strings ([getItem] results, JSON fields, [string | null]
    cells): [null] is [None]. *)
Definition truthy_opt (o : option jsstring) : bool :=
  match o with Some s => truthy s | None => false end.

(** The string an [if (x)] test lets through. *)
Definition if_truthy (o : option jsstring) : option jsstring :=
  match o with
  | Some s => if truthy s then Some s else None
  | None => None
  end.

(** WhiteSpace and LineTerminator code points, the ones
    [String.prototype.trim] strips. *)
Definition is_white_space (c : N) : bool :=
  ((c =? 9) || (c =? 10) || (c =? 11) || (c =? 12) || (c =? 13) ||
   (c =? 32) || (c =? 160) || (c =? 5760) ||
   ((8192 <=? c) && (c <=? 8202)) ||
   (c =? 8232) || (c =? 8233) || (c =? 8239) || (c =? 8287) ||
   (c =? 12288) || (c =? 65279))%N.

Fixpoint trim_start (s : jsstring) : jsstring :=
  match s with
  | [] => []
  | c :: r => if is_white_space c then trim_start r else s
  end.

Definition trim_end (s : jsstring) : jsstring :=
  rev (trim_start (rev s)).

Definition trim (s : jsstring) : jsstring := trim_end (trim_start s).

(** Number-to-string conversion of an integer ([toString], template
    literals): plain decimal digits, with a minus sign when negative. *)
Definition string_of_Z (z : Z) : jsstring :=
  lit (NilZero.string_of_int (Z.to_int z)).

Definition string_of_N (n : N) : jsstring :=
  lit (NilZero.string_of_uint (N.to_uint n)).

(** ** Dates

    A [Date] holds a time value, milliseconds since the epoch, or is an
    Invalid Date. *)
Inductive Date :=
| DateAt (t : Z)
| InvalidDate.

Definition maxTime : Z := 8640000000000000.

(** The time values a Date can hold (TimeClip). *)
Definition valid_time (t : Z) : bool :=
  (- maxTime <=? t) && (t <=? maxTime).

Definition msPerDay : Z := 86400000.

Definition Day (t : Z) : Z := t / msPerDay.
Definition TimeWithinDay (t : Z) : Z := t mod msPerDay.

(** Proleptic Gregorian calendar: day number (days since the epoch) to
    year, month (1..12) and day of month, by 400-year eras starting on
    1 March. *)
Definition civil_of_doe (doe : Z) : Z * Z * Z :=
  let yoe := (doe - doe / 1460 + doe / 36524 - doe / 146096) / 365 in
  let doy := doe - (365 * yoe + yoe / 4 - yoe / 100) in
  let mp := (5 * doy + 2) / 153 in
  let d := doy - (153 * mp + 2) / 5 + 1 in
  let m := if mp <? 10 then mp + 3 else mp - 9 in
  (yoe, m, d).

Definition civil_from_days (z : Z) : Z * Z * Z :=
  let z' := z + 719468 in
  let era := z' / 146097 in
  let '(yoe, m, d) := civil_of_doe (z' mod 146097) in
  (yoe + era * 400 + (if m <=? 2 then 1 else 0), m, d).

Definition doe_of_civil (yoe m d : Z) : Z :=
  let doy := (153 * (if 2 <? m then m - 3 else m + 9) + 2) / 5 + d - 1 in
  yoe * 365 + yoe / 4 - yoe / 100 + doy.

Definition days_from_civil (y m d : Z) : Z :=
  let y' := y - (if m <=? 2 then 1 else 0) in
  let era := y' / 400 in
  era * 146097 + doe_of_civil (y' mod 400) m d - 719468.

(** [k] decimal digits of [n], most significant first. *)
Fixpoint digits (k : nat) (n : Z) : jsstring :=
  match k with
  | O => []
  | S k' => digits k' (n / 10) ++ [Z.to_N (48 + n mod 10)]
  end.

Definition year_string (y : Z) : jsstring :=
  if (0 <=? y) && (y <=? 9999) then digits 4 y
  else (if y <? 0 then lit "-" else lit "+") ++ digits 6 (Z.abs y).

(** [Date.prototype.toISOString] on a valid time value:
    YYYY-MM-DDTHH:mm:ss.sssZ, with a sign and six year digits when the
    year is outside 0..9999. *)
Definition toISOString (t : Z) : jsstring :=
  let '(y, m, d) := civil_from_days (Day t) in
  let ms := TimeWithinDay t in
  year_string y ++ lit "-" ++ digits 2 m ++ lit "-" ++ digits 2 d ++
  lit "T" ++ digits 2 (ms / 3600000) ++ lit ":" ++
  digits 2 (ms / 60000 mod 60) ++ lit ":" ++
  digits 2 (ms / 1000 mod 60) ++ lit "." ++ digits 3 (ms mod 1000) ++
  lit "Z".

(** [Date.prototype.toJSON]: the ISO string, or [null] for an Invalid
    Date. *)
Definition toJSON (d : Date) : option jsstring :=
  match d with
  | DateAt t => Some (toISOString t)
  | InvalidDate => None
  end.

(** Reading the date-time format back. *)
Definition digit_value (c : N) : option Z :=
  if ((48 <=? c) && (c <=? 57))%N then Some (Z.of_N c - 48) else None.

Fixpoint read_digits (k : nat) (acc : Z) (s : jsstring)
  : option (Z * jsstring) :=
  match k with
  | O => Some (acc, s)
  | S k' =>
      match s with
      | [] => None
      | c :: r =>
          match digit_value c with
          | Some v => read_digits k' (10 * acc + v) r
          | None => None
          end
      end
  end.

Definition expect (c : N) (s : jsstring) : option jsstring :=
  match s with
  | x :: r => if (x =? c)%N then Some r else None
  | [] => None
  end.

Definition read_year (s : jsstring) : option (Z * jsstring) :=
  match s with
  | [] => None
  | c :: r =>
      if (c =? 43)%N then read_digits 6 0 r
      else if (c =? 45)%N then
        match read_digits 6 0 r with
        | Some (y, r') => if y =? 0 then None else Some (- y, r')
        | None => None
        end
      else read_digits 4 0 s
  end.

Notation "' p <- e ;; k" :=
  (match e with Some p => k | None => None end)
  (at level 60, p pattern, e at next level, right associativity).

Notation "x <- e ;; k" :=
  (match e with Some x => k | None => None end)
  (at level 60, e at next level, right associativity).

(** [Date.parse] on the texts [toISOString] writes, the only ones the
    component stores.  The other forms of the date-time format (a date
    alone, a time without seconds or milliseconds, hour 24, a zone
    offset) and the forms an engine reads on its own account are not
    modelled: they come out as not-a-time here, where an engine may
    give a time value.  The properties below that read a stored
    timestamp back are stated for texts written by [toISOString]
    only. *)
Definition Date_parse (s : jsstring) : option Z :=
  '(y, s) <- read_year s ;;
  s <- expect 45 s ;;
  '(m, s) <- read_digits 2 0 s ;;
  s <- expect 45 s ;;
  '(d, s) <- read_digits 2 0 s ;;
  s <- expect 84 s ;;
  '(hh, s) <- read_digits 2 0 s ;;
  s <- expect 58 s ;;
  '(mi, s) <- read_digits 2 0 s ;;
  s <- expect 58 s ;;
  '(ss, s) <- read_digits 2 0 s ;;
  s <- expect 46 s ;;
  '(mmm, s) <- read_digits 3 0 s ;;
  s <- expect 90 s ;;
  match s with
  | [] =>
      if (1 <=? m) && (m <=? 12) && (1 <=? d) && (d <=? 31) &&
         (hh <? 24) && (mi <? 60) && (ss <? 60)
      then
        let t := days_from_civil y m d * msPerDay +
                 hh * 3600000 + mi * 60000 + ss * 1000 + mmm in
        if valid_time t then Some t else None
      else None
  | _ :: _ => None
  end.

(** [new Date(string)]. *)
Definition Date_of_string (s : jsstring) : Date :=
  match Date_parse s with
  | Some t => DateAt t
  | None => InvalidDate
  end.

End JS.

Import JS.

(* ================================================================== *)
(** * Health probes *)

Module Health.

(** ** The route handler [GET] of the Ollama health check *)

(** Outcome of the server-side [fetch] of Ollama's own health URL. *)
Inductive UpstreamFetch :=
| UpstreamResponse (ok : bool)
| UpstreamThrew.

Record StatusBody := mkStatusBody {
  status : jsstring;
  message : option jsstring
}.

Definition GET (r : UpstreamFetch) : StatusBody :=
  match r with
  | UpstreamResponse true => mkStatusBody (lit "online") None
  | UpstreamResponse false => mkStatusBody (lit "offline") None
  | UpstreamThrew =>
      mkStatusBody (lit "offline")
        (Some (lit "Ollama is not available in production environment"))
  end.

(** ** Client-side probes *)

(** What a probe ([fetch] of a status URL followed by [response.json()])
    comes to: one of the two awaits throws (network failure, timeout,
    a body that is not JSON); or the body read is [null], on which
    reading [.status] throws a [TypeError]; or the body is any other
    JSON value, whose [status] member is a string or is not one
    ([None]: no such member, or a member that is no string). *)
Inductive ProbeOutcome :=
| ProbeThrew
| ProbeNull
| ProbeData (status_field : option jsstring).

(** [data.status === 'online'] *)
Definition is_online (status_field : option jsstring) : bool :=
  match status_field with
  | Some s => jsstring_eqb s (lit "online")
  | None => false
  end.

(** The probe of a status URL served by [GET]. *)
Definition probe_of_GET (r : UpstreamFetch) : ProbeOutcome :=
  ProbeData (Some (status (GET r))).

Inductive ConnectionStatus := connected | disconnected | checking.

(** [checkOllamaStatus] of the chat component: the value it passes to
    [setConnectionStatus].  The awaits and the reading of [data.status]
    stand in one [try], whose [catch] sets disconnected. *)
Definition checkOllamaStatus (o : ProbeOutcome) : ConnectionStatus :=
  match o with
  | ProbeData d => if is_online d then connected else disconnected
  | ProbeNull => disconnected
  | ProbeThrew => disconnected
  end.

End Health.

(** ** The status panel [ApiStatus] *)

Module ApiStatus.

Import Health.

Record Status := mkStatus {
  ollama : bool;
  openrouter : bool
}.

(** [useState] initial value. *)
Definition initial : Status := mkStatus false false.

(** [checkStatus]: both probes are awaited in turn inside one [try];
    the OpenRouter one is only issued when the awaits of the Ollama one
    have not thrown.  [setStatus] is reached when both bodies are read
    and neither is [null]: its argument reads [ollamaData.status] and
    [openRouterData.status], which throws on a [null] body.  The
    [catch] branch logs and sets nothing. *)
Definition checkStatus (st : Status)
    (ollamaProbe openRouterProbe : ProbeOutcome) : Status :=
  match ollamaProbe with
  | ProbeThrew => st
  | ProbeNull => st
  | ProbeData ollamaData =>
      match openRouterProbe with
      | ProbeThrew => st
      | ProbeNull => st
      | ProbeData openRouterData =>
          mkStatus (is_online ollamaData) (is_online openRouterData)
      end
  end.

(** The panel after its only [checkStatus] run (the effect has no
    dependencies and no timer). *)
Definition after_mount (ollamaProbe openRouterProbe : ProbeOutcome)
  : Status :=
  checkStatus initial ollamaProbe openRouterProbe.

End ApiStatus.

(* ================================================================== *)
(** * The chat component [OllamaChatInterface] *)

Module Chat.

Import Health.

Inductive Role := user | assistant.

Record Message := mkMessage {
  id : jsstring;
  role : Role;
  content : jsstring;
  timestamp : Date
}.

Inductive ModelType := ollama | openrouter.

(** ** Component state: one field per [useState] cell *)

Record State := mkState {
  userName : jsstring;
  userAvatar : jsstring;
  aiAvatar : jsstring;
  editingName : bool;
  tempUserName : jsstring;
  messages : list Message;
  userInput : jsstring;
  isLoading : bool;
  connectionStatus : ConnectionStatus;
  selectedModel : ModelType;
  error : option jsstring
}.

Definition initial_state : State :=
  mkState (lit "User") [] [] false [] [] [] false checking ollama None.

Definition setUserName v s :=
  mkState v (userAvatar s) (aiAvatar s) (editingName s) (tempUserName s)
    (messages s) (userInput s) (isLoading s) (connectionStatus s)
    (selectedModel s) (error s).
Definition setUserAvatar v s :=
  mkState (userName s) v (aiAvatar s) (editingName s) (tempUserName s)
    (messages s) (userInput s) (isLoading s) (connectionStatus s)
    (selectedModel s) (error s).
Definition setAiAvatar v s :=
  mkState (userName s) (userAvatar s) v (editingName s) (tempUserName s)
    (messages s) (userInput s) (isLoading s) (connectionStatus s)
    (selectedModel s) (error s).
Definition setEditingName v s :=
  mkState (userName s) (userAvatar s) (aiAvatar s) v (tempUserName s)
    (messages s) (userInput s) (isLoading s) (connectionStatus s)
    (selectedModel s) (error s).
Definition setTempUserName v s :=
  mkState (userName s) (userAvatar s) (aiAvatar s) (editingName s) v
    (messages s) (userInput s) (isLoading s) (connectionStatus s)
    (selectedModel s) (error s).
Definition setMessages v s :=
  mkState (userName s) (userAvatar s) (aiAvatar s) (editingName s)
    (tempUserName s) v (userInput s) (isLoading s) (connectionStatus s)
    (selectedModel s) (error s).
Definition setUserInput v s :=
  mkState (userName s) (userAvatar s) (aiAvatar s) (editingName s)
    (tempUserName s) (messages s) v (isLoading s) (connectionStatus s)
    (selectedModel s) (error s).
Definition setIsLoading v s :=
  mkState (userName s) (userAvatar s) (aiAvatar s) (editingName s)
    (tempUserName s) (messages s) (userInput s) v (connectionStatus s)
    (selectedModel s) (error s).
Definition setConnectionStatus v s :=
  mkState (userName s) (userAvatar s) (aiAvatar s) (editingName s)
    (tempUserName s) (messages s) (userInput s) (isLoading s) v
    (selectedModel s) (error s).
Definition setSelectedModel v s :=
  mkState (userName s) (userAvatar s) (aiAvatar s) (editingName s)
    (tempUserName s) (messages s) (userInput s) (isLoading s)
    (connectionStatus s) v (error s).
Definition setError v s :=
  mkState (userName s) (userAvatar s) (aiAvatar s) (editingName s)
    (tempUserName s) (messages s) (userInput s) (isLoading s)
    (connectionStatus s) (selectedModel s) v.

(** ** localStorage

    One cell per key the component uses; [None] is an absent key.  The
    history cell holds JSON text: it is kept as the array of objects
    that text denotes ([JSON.parse] reads back what [JSON.stringify]
    wrote), a [Date] being written through [toJSON]. *)

Record StoredMessage := mkStoredMessage {
  stored_id : jsstring;
  stored_role : Role;
  stored_content : jsstring;
  stored_timestamp : option jsstring
}.

Record LocalStorage := mkLocalStorage {
  healthcare_chat_username : option jsstring;
  healthcare_user_avatar : option jsstring;
  healthcare_ai_avatar : option jsstring;
  healthcare_chat_history : option (list StoredMessage)
}.

Definition empty_storage : LocalStorage :=
  mkLocalStorage None None None None.

Definition set_chat_username v ls :=
  mkLocalStorage (Some v) (healthcare_user_avatar ls)
    (healthcare_ai_avatar ls) (healthcare_chat_history ls).
Definition set_user_avatar v ls :=
  mkLocalStorage (healthcare_chat_username ls) (Some v)
    (healthcare_ai_avatar ls) (healthcare_chat_history ls).
Definition set_ai_avatar v ls :=
  mkLocalStorage (healthcare_chat_username ls) (healthcare_user_avatar ls)
    (Some v) (healthcare_chat_history ls).
Definition set_chat_history v ls :=
  mkLocalStorage (healthcare_chat_username ls) (healthcare_user_avatar ls)
    (healthcare_ai_avatar ls) (Some v).

(** [JSON.stringify] of a message. *)
Definition stringify_message (m : Message) : StoredMessage :=
  mkStoredMessage (id m) (role m) (content m) (toJSON (timestamp m)).

Definition stringify_messages (ms : list Message) : list StoredMessage :=
  map stringify_message ms.

(** The [map] of the load effect:
    [{...msg, timestamp: msg.timestamp ? new Date(msg.timestamp) : new Date()}].
    [now] is the clock reading of the fallback [new Date()]. *)
Definition revive_message (now : Z) (msg : StoredMessage) : Message :=
  mkMessage (stored_id msg) (stored_role msg) (stored_content msg)
    (match if_truthy (stored_timestamp msg) with
     | Some ts => Date_of_string ts
     | None => DateAt now
     end).

Definition welcome_id : jsstring := lit "welcome-message".

Definition welcome_content : jsstring :=
  lit "Hello! I'm your FemCare assistant powered by Ollama. I can help answer women's health questions, check symptoms, or recommend specialists. How can I help you today?".

Definition welcomeMessage (now : Z) : Message :=
  mkMessage welcome_id assistant welcome_content (DateAt now).

Definition user_avatar_url (seed : N) : jsstring :=
  lit "https://api.dicebear.com/7.x/avataaars/svg?seed=" ++ string_of_N seed.

Definition ai_avatar_url (seed : N) : jsstring :=
  lit "https://api.dicebear.com/7.x/bottts/svg?seed=" ++ string_of_N seed.

(** ** Effects *)

(** The load effect (run once, on mount).  [now] is the reading of the
    clock by [new Date()]; [userSeed] and [aiSeed] are the values of
    [Math.floor(Math.random() * 1000)], read only when an avatar is
    missing. *)
Definition load_effect (now : Z) (userSeed aiSeed : N)
    (s : State) (ls : LocalStorage) : State * LocalStorage :=
  let s :=
    match if_truthy (healthcare_chat_username ls) with
    | Some savedUserName => setUserName savedUserName s
    | None => s
    end in
  let '(s, ls) :=
    match if_truthy (healthcare_user_avatar ls) with
    | Some savedUserAvatar => (setUserAvatar savedUserAvatar s, ls)
    | None =>
        let newUserAvatar := user_avatar_url userSeed in
        (setUserAvatar newUserAvatar s, set_user_avatar newUserAvatar ls)
    end in
  let '(s, ls) :=
    match if_truthy (healthcare_ai_avatar ls) with
    | Some savedAiAvatar => (setAiAvatar savedAiAvatar s, ls)
    | None =>
        let newAiAvatar := ai_avatar_url aiSeed in
        (setAiAvatar newAiAvatar s, set_ai_avatar newAiAvatar ls)
    end in
  match healthcare_chat_history ls with
  | Some parsedMessages =>
      (setMessages (map (revive_message now) parsedMessages) s, ls)
  | None =>
      (setMessages [welcomeMessage now] s,
       set_chat_history (stringify_messages [welcomeMessage now]) ls)
  end.

(** The save effect (run after each render in which [messages]
    changed). *)
Definition save_effect (s : State) (ls : LocalStorage) : LocalStorage :=
  match messages s with
  | [] => ls
  | _ :: _ => set_chat_history (stringify_messages (messages s)) ls
  end.

(** ** Handlers *)

(** The body of the chat request. *)
Record RequestBody := mkRequestBody {
  body_messages : list (Role * jsstring);
  model_type : ModelType
}.

Definition role_content (m : Message) : Role * jsstring :=
  (role m, content m).

Definition blank (s : jsstring) : bool := negb (truthy (trim s)).

(** The message [handleSubmit] builds; [idNow] is the reading of
    [Date.now()], [tsNow] the one of [new Date()]. *)
Definition userMessage (r : State) (idNow tsNow : Z) : Message :=
  mkMessage (string_of_Z idNow) user (userInput r) (DateAt tsNow).

(** [handleSubmit] up to its [await].  [r] is the render whose closure
    the handler reads ([userInput], [messages], [selectedModel]); [cur]
    is the state the queued updater [prev => [...prev, userMessage]]
    is applied to.  [None]: the early [return].  Otherwise the new
    state and the body handed to [fetch]. *)
Definition handleSubmit_send (r : State) (idNow tsNow : Z) (cur : State)
  : option (State * RequestBody) :=
  if blank (userInput r) then None
  else
    let m := userMessage r idNow tsNow in
    Some (setMessages (messages cur ++ [m]) cur,
          mkRequestBody (map role_content (messages r ++ [m]))
                        (selectedModel r)).

(** What the awaited [fetch] comes to. *)
Inductive Thrown :=
| ErrorObject (msg : jsstring)
| OtherValue.

Inductive FetchOutcome :=
| Response (status : N)
| Rejected (e : Thrown).

(** [response.ok] *)
Definition response_ok (status : N) : bool :=
  ((200 <=? status) && (status <=? 299))%N.

Definition http_error_message (status : N) : jsstring :=
  lit "HTTP error! status: " ++ string_of_N status.

(** [error instanceof Error ? error.message : 'An unknown error occurred'] *)
Definition error_text (e : Thrown) : jsstring :=
  match e with
  | ErrorObject msg => msg
  | OtherValue => lit "An unknown error occurred"
  end.

Definition catch_finally (e : Thrown) (s : State) : State :=
  setIsLoading false (setError (Some (error_text e)) s).

(** [handleSubmit] from its [await] on: the rest of the [try] block,
    the [catch] and the [finally]. *)
Definition handleSubmit_resume (o : FetchOutcome) (s : State) : State :=
  match o with
  | Response status =>
      let s := setUserInput [] s in
      if response_ok status
      then setIsLoading false s
      else catch_finally (ErrorObject (http_error_message status)) s
  | Rejected e => catch_finally e s
  end.

Definition handleClearChat (now : Z) (s : State) (ls : LocalStorage)
  : State * LocalStorage :=
  (setMessages [welcomeMessage now] s,
   set_chat_history (stringify_messages [welcomeMessage now]) ls).

Definition handleSaveUserName (s : State) (ls : LocalStorage)
  : State * LocalStorage :=
  let '(s, ls) :=
    if blank (tempUserName s) then (s, ls)
    else (setUserName (tempUserName s) s,
          set_chat_username (tempUserName s) ls) in
  (setEditingName false s, ls).

Definition handleGenerateNewAvatars (userSeed aiSeed : N)
    (s : State) (ls : LocalStorage) : State * LocalStorage :=
  let newUserAvatar := user_avatar_url userSeed in
  let newAiAvatar := ai_avatar_url aiSeed in
  (setAiAvatar newAiAvatar (setUserAvatar newUserAvatar s),
   set_ai_avatar newAiAvatar (set_user_avatar newUserAvatar ls)).

(** ** Rendering *)

(** [{isLoading && <div ...spinner.../>}] *)
Definition spinner_shown (s : State) : bool := isLoading s.

(** [disabled={isLoading || !userInput.trim()}] of the submit button. *)
Definition submit_disabled (s : State) : bool :=
  isLoading s || blank (userInput s).

(** [{error && <div ...>Error: {error}</div>}]: an empty text is not
    shown. *)
Definition error_shown (s : State) : bool := truthy_opt (error s).

(** ** The component in its environment *)

(** The rendered state, the browser's storage and the chat requests
    whose [fetch] has not settled yet, oldest first. *)
Record World := mkWorld {
  ui : State;
  storage : LocalStorage;
  inflight : list RequestBody
}.

Inductive Event :=
| ChangeInput (text : jsstring)
| Submit (idNow tsNow : Z)
| Settle (k : nat) (o : FetchOutcome)
| ClearChat (now : Z)
| SelectModel (m : ModelType)
| StartEditName
| ChangeTempName (text : jsstring)
| SaveUserName
| GenerateNewAvatars (userSeed aiSeed : N)
| Probe (o : ProbeOutcome)
| Reload (now : Z) (userSeed aiSeed : N).

(** Mounting the component over a storage: the first render, the load
    effect, then the save effect of the render that shows the loaded
    messages. *)
Definition mount (now : Z) (userSeed aiSeed : N) (ls : LocalStorage)
  : World :=
  let '(s, ls) := load_effect now userSeed aiSeed initial_state ls in
  mkWorld s (save_effect s ls) [].

Definition remove_nth {A} (k : nat) (l : list A) : list A :=
  firstn k l ++ skipn (S k) l.

(** One event, with the render and the effects that follow it.  A
    discrete event is handled by the closure of the latest render, so
    [handleSubmit] reads the current state.  [Settle k o]: the [fetch]
    of the [k]-th request in flight settles with [o].  [Probe o]: a run
    of [checkOllamaStatus] (on mount, then on its 30 s timer) ends.
    [Reload]: the page is loaded again over the same storage; the
    requests in flight go with the old page.  [None]: the event cannot
    happen (a clock reading no Date can hold, no such request in
    flight). *)
Definition step (w : World) (e : Event) : option World :=
  let s := ui w in
  let ls := storage w in
  match e with
  | ChangeInput text => Some (mkWorld (setUserInput text s) ls (inflight w))
  | Submit idNow tsNow =>
      match handleSubmit_send s idNow tsNow s with
      | None => Some w
      | Some (s', body) =>
          if valid_time idNow && valid_time tsNow
          then Some (mkWorld s' (save_effect s' ls) (inflight w ++ [body]))
          else None
      end
  | Settle k o =>
      match nth_error (inflight w) k with
      | Some _ =>
          Some (mkWorld (handleSubmit_resume o s) ls
                        (remove_nth k (inflight w)))
      | None => None
      end
  | ClearChat now =>
      if valid_time now then
        let '(s', ls') := handleClearChat now s ls in
        Some (mkWorld s' (save_effect s' ls') (inflight w))
      else None
  | SelectModel m => Some (mkWorld (setSelectedModel m s) ls (inflight w))
  | StartEditName => Some (mkWorld (setEditingName true s) ls (inflight w))
  | ChangeTempName text =>
      Some (mkWorld (setTempUserName text s) ls (inflight w))
  | SaveUserName =>
      let '(s', ls') := handleSaveUserName s ls in
      Some (mkWorld s' ls' (inflight w))
  | GenerateNewAvatars userSeed aiSeed =>
      let '(s', ls') := handleGenerateNewAvatars userSeed aiSeed s ls in
      Some (mkWorld s' ls' (inflight w))
  | Probe o =>
      Some (mkWorld (setConnectionStatus (checkOllamaStatus o) s) ls
                    (inflight w))
  | Reload now userSeed aiSeed =>
      if valid_time now then Some (mount now userSeed aiSeed ls) else None
  end.

Fixpoint run (w : World) (es : list Event) : option World :=
  match es with
  | [] => Some w
  | e :: es' =>
      match step w e with
      | Some w' => run w' es'
      | None => None
      end
  end.

(** First activation: mounting over an empty storage. *)
Definition first_activation (now : Z) (userSeed aiSeed : N) : World :=
  mount now userSeed aiSeed empty_storage.

(** The states the component can be in. *)
Definition reachable (w : World) : Prop :=
  exists now userSeed aiSeed es,
    valid_time now = true /\
    run (first_activation now userSeed aiSeed) es = Some w.

(** The values of [Date.now()] met by the submissions of a sequence of
    events, in order (a submission turned down for a blank text returns
    before reading the clock; its value is listed all the same). *)
Fixpoint submit_readings (es : list Event) : list Z :=
  match es with
  | [] => []
  | Submit idNow _ :: r => idNow :: submit_readings r
  | _ :: r => submit_readings r
  end.

(** A failed dispatch: the [fetch] rejected, or the response is not
    [ok]. *)
Definition failed (o : FetchOutcome) : bool :=
  match o with
  | Response status => negb (response_ok status)
  | Rejected _ => true
  end.

(** The text the [catch] branch is handed for a failed dispatch. *)
Definition failure_text (o : FetchOutcome) : jsstring :=
  match o with
  | Response status => http_error_message status
  | Rejected e => error_text e
  end.

(** ** Storage and rendered state agree *)

(** A Date that holds a time value. *)
Definition holds_instant (d : Date) : Prop :=
  match d with
  | DateAt t => valid_time t = true
  | InvalidDate => False
  end.

(** The invariant of the component: there is a message, every
    timestamp holds a time value, the history key holds the messages
    shown, the avatar keys hold the avatars shown, and the name key
    holds the display name unless that is still the default. *)
Record in_sync (w : World) : Prop := mk_in_sync {
  sync_nonempty : messages (ui w) <> [];
  sync_dates :
    Forall (fun m => holds_instant (timestamp m)) (messages (ui w));
  sync_history :
    healthcare_chat_history (storage w) =
    Some (stringify_messages (messages (ui w)));
  sync_user_avatar :
    healthcare_user_avatar (storage w) = Some (userAvatar (ui w)) /\
    truthy (userAvatar (ui w)) = true;
  sync_ai_avatar :
    healthcare_ai_avatar (storage w) = Some (aiAvatar (ui w)) /\
    truthy (aiAvatar (ui w)) = true;
  sync_username :
    match healthcare_chat_username (storage w) with
    | Some n => n = userName (ui w) /\ truthy n = true
    | None => userName (ui w) = lit "User"
    end
}.

(** The ids of the messages shown: the welcome message's, then the
    decimal renderings of the clock readings [ts]. *)
Definition ids_from (w : World) (ts : list Z) : Prop :=
  map id (messages (ui w)) = welcome_id :: map string_of_Z ts.

End Chat.

(* ================================================================== *)
(** * The session properties as the specification words them

    Stated here for the properties the code does not have, to be
    refuted on a concrete session. *)

Module Stated.

Import Chat.

(** A successful dispatch appends the assistant's reply right after the
    user message, returns to idle and clears the recorded error. *)
Definition success_appends_reply (w : World) (idNow tsNow : Z)
    (status : N) : Prop :=
  forall w1 w2,
    blank (userInput (ui w)) = false ->
    response_ok status = true ->
    step w (Submit idNow tsNow) = Some w1 ->
    step w1 (Settle (List.length (inflight w)) (Response status)) = Some w2 ->
    (exists reply,
        role reply = assistant /\
        messages (ui w2) =
        messages (ui w) ++ [userMessage (ui w) idNow tsNow; reply]) /\
    isLoading (ui w2) = false /\
    error (ui w2) = None.

(** A submission is turned down, changing nothing, when the text is
    blank or an earlier submission has not settled. *)
Definition rejected_when_blank_or_submitting (w : World)
    (idNow tsNow : Z) : Prop :=
  blank (userInput (ui w)) = true \/ inflight w <> [] ->
  step w (Submit idNow tsNow) = Some w.

(** Clearing the chat leaves one assistant welcome message, no recorded
    error, and the backend selection and profile as they were. *)
Definition clear_resets_error (now : Z) (s : State) (ls : LocalStorage)
  : Prop :=
  let s' := fst (handleClearChat now s ls) in
  (exists m, messages s' = [m] /\ role m = assistant) /\
  error s' = None /\
  selectedModel s' = selectedModel s /\
  userName s' = userName s /\
  userAvatar s' = userAvatar s /\
  aiAvatar s' = aiAvatar s.

(** An accepted submission has appended the user message and emptied
    the input buffer by the time the request is handed to [fetch]. *)
Definition input_cleared_before_dispatch (w : World) (idNow tsNow : Z)
  : Prop :=
  forall w1,
    blank (userInput (ui w)) = false ->
    step w (Submit idNow tsNow) = Some w1 ->
    messages (ui w1) = messages (ui w) ++ [userMessage (ui w) idNow tsNow] /\
    role (userMessage (ui w) idNow tsNow) = user /\
    userInput (ui w1) = [].

(** Message ids are unique in every state the component can be in. *)
Definition ids_always_unique : Prop :=
  forall w, reachable w -> NoDup (map id (messages (ui w))).

(** Each backend's flag follows its own probe, whatever the other
    probe comes to. *)
Definition probes_independent
    (ollamaProbe openRouterProbe : Health.ProbeOutcome) : Prop :=
  let st := ApiStatus.after_mount ollamaProbe openRouterProbe in
  ApiStatus.ollama st =
    (match ollamaProbe with
     | Health.ProbeData d => Health.is_online d
     | Health.ProbeNull => false
     | Health.ProbeThrew => false
     end) /\
  ApiStatus.openrouter st =
    (match openRouterProbe with
     | Health.ProbeData d => Health.is_online d
     | Health.ProbeNull => false
     | Health.ProbeThrew => false
     end).

End Stated.

(* ================================================================== *)
(** * A concrete session *)

Module Scenario.

Import Chat.

Definition t0 : Z := 1700000000000.
Definition t1 : Z := 1700000060000.
Definition t2 : Z := 1700000120000.

Definition question : jsstring :=
  lit "What are common symptoms of anemia?".

(** First activation. *)
Definition opened : World := first_activation t0 417 902.

Definition world_after (es : list Event) : World :=
  match run opened es with
  | Some w => w
  | None => opened
  end.

(** The user types the question and submits it; the request is in
    flight. *)
Definition ask : list Event := [ChangeInput question; Submit t1 t1].

(** The endpoint answers 500. *)
Definition refuse : list Event := ask ++ [Settle 0%nat (Response 500)].

(** The user types the question again. *)
Definition retype : list Event := refuse ++ [ChangeInput question].

(** The first request answered 200 instead. *)
Definition ask_answered : list Event :=
  ask ++ [Settle 0%nat (Response 200)].

(** The second request is answered 200. *)
Definition answer : list Event :=
  retype ++ [Submit t2 t2; Settle 0%nat (Response 200)].

(** Two submissions handled within the same millisecond. *)
Definition burst : list Event :=
  [ChangeInput question; Submit t1 t1; Submit t1 t1].

(** A session with a name change, new avatars, a cleared chat and a
    page reload. *)
Definition long_session : list Event :=
  refuse ++
  [StartEditName; ChangeTempName (lit "Asha"); SaveUserName;
   GenerateNewAvatars 12 345; SelectModel openrouter;
   ChangeInput (lit "And of iron deficiency?"); Submit t2 (t2 + 1);
   Probe (Health.ProbeData (Some (lit "online")));
   Settle 0%nat (Rejected (ErrorObject (lit "Failed to fetch")));
   Reload (t2 + 5000) 1 2].

End Scenario.

(* ================================================================== *)
(** * What the chat component renders *)

Module View.

Import Health Chat.

(** [{connectionStatus === 'disconnected' && <Alert ...>}] *)
Definition alert_shown (s : State) : bool :=
  match connectionStatus s with
  | disconnected => true
  | _ => false
  end.

(** The red classes of the [Badge]:
    [connectionStatus === 'disconnected' && "bg-red-100 ..."]. *)
Definition badge_red (s : State) : bool :=
  match connectionStatus s with
  | disconnected => true
  | _ => false
  end.

(** The text of the [Badge], one of two translated labels:
    [connectionStatus === 'connected' ? ...connected : ...disconnected]. *)
Inductive BadgeLabel := label_connected | label_disconnected.

Definition badge_label (s : State) : BadgeLabel :=
  match connectionStatus s with
  | connected => label_connected
  | _ => label_disconnected
  end.

End View.

(* ================================================================== *)
(** * Summaries of a session *)

Module Session.

Import Health Chat.

(** The connection status as the events leave it. *)
Definition status_event (acc : ConnectionStatus) (e : Event)
  : ConnectionStatus :=
  match e with
  | Probe o => checkOllamaStatus o
  | Reload _ _ _ => checking
  | _ => acc
  end.

(** The recorded error as the events leave it. *)
Definition error_event (acc : option jsstring) (e : Event)
  : option jsstring :=
  match e with
  | Settle _ o => if failed o then Some (failure_text o) else acc
  | Reload _ _ _ => None
  | _ => acc
  end.

(** The selected backend as the events leave it. *)
Definition model_event (acc : ModelType) (e : Event) : ModelType :=
  match e with
  | SelectModel m => m
  | Reload _ _ _ => ollama
  | _ => acc
  end.

(** The input buffer as the events leave it. *)
Definition input_event (acc : jsstring) (e : Event) : jsstring :=
  match e with
  | ChangeInput text => text
  | Settle _ (Response _) => []
  | Reload _ _ _ => []
  | _ => acc
  end.

(** A message sequence made of a welcome message followed by user
    messages with a text that is not blank. *)
Definition welcome_then_users (ms : list Message) : Prop :=
  exists now rest,
    ms = welcomeMessage now :: rest /\
    Forall (fun m => role m = user /\ blank (content m) = false) rest.

(** A request body made of the welcome text as its only assistant
    turn, followed by one or more user turns, none of them blank. *)
Definition welcome_then_user_turns (b : RequestBody) : Prop :=
  exists texts,
    body_messages b = (assistant, welcome_content) :: map (pair user) texts /\
    texts <> [] /\
    Forall (fun c => blank c = false) texts.

(** What holds of every world the component reaches, besides the
    agreement of storage and state. *)
Record shaped (w : World) : Prop := mk_shaped {
  shaped_sync : in_sync w;
  shaped_messages : welcome_then_users (messages (ui w));
  shaped_name : blank (userName (ui w)) = false;
  shaped_avatars :
    exists userSeed aiSeed,
      userAvatar (ui w) = user_avatar_url userSeed /\
      aiAvatar (ui w) = ai_avatar_url aiSeed;
  shaped_inflight : Forall welcome_then_user_turns (inflight w)
}.

(** The world a reload of the page leaves: messages and profile as they
    were, every other cell at its initial value, no request in
    flight. *)
Definition reloaded (w : World) : World :=
  mkWorld
    (mkState (userName (ui w)) (userAvatar (ui w)) (aiAvatar (ui w))
       false [] (messages (ui w)) [] false checking ollama None)
    (storage w) [].

(** A stored timestamp that is missing or was written by the component:
    [null], the empty text, or the text [toISOString] gives for a time
    value. *)
Definition written_or_missing (ts : option jsstring) : Prop :=
  ts = None \/ ts = Some [] \/
  exists t, valid_time t = true /\ ts = Some (toISOString t).

(** A storage the load effect reads to the end: its history key is
    absent, or holds an array of message objects with such
    timestamps.  The name and avatar keys hold any text, or none. *)
Definition readable (ls : LocalStorage) : Prop :=
  forall stored,
    healthcare_chat_history ls = Some stored ->
    Forall (fun msg => written_or_missing (stored_timestamp msg)) stored.

(** How a stored entry and the message shown for it agree on the
    time, for a load at [now]. *)
Definition timestamp_loaded (now : Z) (msg : StoredMessage) (m : Message)
  : Prop :=
  (stored_timestamp msg = None \/ stored_timestamp msg = Some []) /\
  timestamp m = DateAt now \/
  exists t, valid_time t = true /\
            stored_timestamp msg = Some (toISOString t) /\
            timestamp m = DateAt t.


(** A session with three probes, a change of backend and two
    submissions. *)
Definition probing : list Event :=
  [ Probe ProbeThrew; SelectModel openrouter;
    Probe (ProbeData (Some (lit "online")));
    ChangeInput Scenario.question; Submit Scenario.t1 Scenario.t1;
    Settle 0%nat (Response 503);
    ChangeInput Scenario.question; Submit Scenario.t2 Scenario.t2;
    Probe (ProbeData (Some (lit "offline"))) ].

(** The user types a second question while the first request is in
    flight; the first request is then answered 200. *)
Definition typed_while_waiting : list Event :=
  Scenario.ask ++
  [ ChangeInput (lit "And of iron deficiency?");
    Settle 0%nat (Response 200) ].

End Session.

(* ================================================================== *)
(** * Properties *)

Import Health Chat.

(** ** Strings and numbers *)

Lemma trim_start_nil_iff s :
  trim_start s = [] <-> forallb is_white_space s = true.
Proof.
  induction s as [|c r IH]; simpl.
  - tauto.
  - destruct (is_white_space c); simpl.
    + exact IH.
    + split; discriminate.
Qed.

(** What [trim_start] returns does not begin with white space. *)
Lemma trim_start_head s c r :
  trim_start s = c :: r -> is_white_space c = false.
Proof.
  induction s as [|x s IH]; simpl; [discriminate|].
  destruct (is_white_space x) eqn:Ex; [exact IH|].
  intros [= -> _]. exact Ex.
Qed.

(** [s.trim()] is empty exactly when [s] is made of white space. *)
Lemma trim_nil_iff s : trim s = [] <-> forallb is_white_space s = true.
Proof.
  unfold trim, trim_end. split.
  - intros H. apply trim_start_nil_iff.
    destruct (trim_start s) as [|c r] eqn:E; [reflexivity|exfalso].
    assert (Hr : trim_start (rev (c :: r)) = []).
    { destruct (trim_start (rev (c :: r))) eqn:E2; [reflexivity|].
      simpl in H. apply (f_equal (@List.length N)) in H.
      rewrite length_app in H. simpl in H. lia. }
    apply trim_start_nil_iff in Hr. rewrite forallb_forall in Hr.
    assert (Hc : is_white_space c = true).
    { apply Hr, in_rev. rewrite rev_involutive. now left. }
    apply trim_start_head in E. congruence.
  - intros H. apply trim_start_nil_iff in H. now rewrite H.
Qed.

Lemma blank_iff s : blank s = true <-> forallb is_white_space s = true.
Proof.
  unfold blank. rewrite <- trim_nil_iff.
  destruct (trim s); cbn; split; congruence.
Qed.

Lemma blank_false_truthy s : blank s = false -> truthy s = true.
Proof. destruct s; [discriminate | reflexivity]. Qed.

Lemma lit_inj a b : lit a = lit b -> a = b.
Proof.
  revert b; induction a as [|x a IH]; intros [|y b]; simpl;
    try discriminate; auto.
  intros [= H1 H2]. f_equal; auto.
  rewrite <- (ascii_N_embedding x), <- (ascii_N_embedding y). congruence.
Qed.

Lemma to_int_not_nil z :
  Z.to_int z <> Decimal.Pos Decimal.Nil /\
  Z.to_int z <> Decimal.Neg Decimal.Nil.
Proof.
  destruct z as [|p|p]; simpl; split; try discriminate;
    intros [= H]; exact (DecimalPos.Unsigned.to_uint_nonnil p H).
Qed.

(** The decimal rendering of an integer reads back to it. *)
Lemma int_of_string_of_Z z :
  NilZero.int_of_string (NilZero.string_of_int (Z.to_int z)) =
  Some (Z.to_int z).
Proof. destruct (to_int_not_nil z). now apply NilZero.isi. Qed.

Lemma string_of_Z_inj a b : string_of_Z a = string_of_Z b -> a = b.
Proof.
  unfold string_of_Z. intros H. apply lit_inj in H.
  apply (f_equal NilZero.int_of_string) in H.
  rewrite !int_of_string_of_Z in H.
  injection H as H. now apply DecimalZ.to_int_inj.
Qed.

(** No clock reading renders as the welcome message's id. *)
Lemma string_of_Z_not_welcome z : string_of_Z z <> welcome_id.
Proof.
  unfold string_of_Z, welcome_id. intros H. apply lit_inj in H.
  apply (f_equal NilZero.int_of_string) in H.
  rewrite int_of_string_of_Z in H. discriminate H.
Qed.

(** ** Dates: the ISO format read back *)

(** *** The calendar *)

Lemma year_of_era_bounds doe :
  0 <= doe < 146097 ->
  let yoe := (doe - doe / 1460 + doe / 36524 - doe / 146096) / 365 in
  0 <= yoe < 400 /\ 0 <= doe - (365 * yoe + yoe / 4 - yoe / 100) <= 365.
Proof.
  intros H yoe. subst yoe.
  Z.to_euclidean_division_equations; lia.
Qed.

Lemma month_day_bounds doy :
  0 <= doy <= 365 ->
  let mp := (5 * doy + 2) / 153 in
  0 <= mp <= 11 /\ 1 <= doy - (153 * mp + 2) / 5 + 1 <= 31.
Proof.
  intros H mp. subst mp.
  Z.to_euclidean_division_equations; lia.
Qed.

(** A month numbered from March, to the civil month and back. *)
Lemma march_month_back mp :
  0 <= mp <= 11 ->
  let m := if mp <? 10 then mp + 3 else mp - 9 in
  (if 2 <? m then m - 3 else m + 9) = mp /\ 1 <= m <= 12.
Proof.
  intros H. cbv zeta.
  destruct (mp <? 10) eqn:E; [apply Z.ltb_lt in E | apply Z.ltb_ge in E].
  - destruct (2 <? mp + 3) eqn:E2; [lia | apply Z.ltb_ge in E2; lia].
  - destruct (2 <? mp - 9) eqn:E2; [apply Z.ltb_lt in E2; lia | lia].
Qed.

Lemma civil_of_doe_spec doe :
  0 <= doe < 146097 ->
  let '(yoe, m, d) := civil_of_doe doe in
  doe_of_civil yoe m d = doe /\
  0 <= yoe < 400 /\ 1 <= m <= 12 /\ 1 <= d <= 31.
Proof.
  intros H. unfold civil_of_doe, doe_of_civil.
  pose proof (year_of_era_bounds doe H) as [Hy Hdoy].
  set (yoe := (doe - doe / 1460 + doe / 36524 - doe / 146096) / 365) in *.
  set (doy := doe - (365 * yoe + yoe / 4 - yoe / 100)) in *.
  pose proof (month_day_bounds doy Hdoy) as [Hmp Hd].
  set (mp := (5 * doy + 2) / 153) in *.
  pose proof (march_month_back mp Hmp) as [Hm Hm12]. cbv zeta in Hm, Hm12.
  rewrite Hm. repeat split; lia.
Qed.

(** Day number to civil date and back, with the ranges of the fields
    and of the year. *)
Lemma civil_from_days_spec z :
  let '(y, m, d) := civil_from_days z in
  days_from_civil y m d = z /\ 1 <= m <= 12 /\ 1 <= d <= 31 /\
  (z + 719468) / 146097 * 400 <= y <= (z + 719468) / 146097 * 400 + 400.
Proof.
  unfold civil_from_days.
  set (z' := z + 719468).
  assert (Hd : 0 <= z' mod 146097 < 146097) by (apply Z.mod_pos_bound; lia).
  pose proof (civil_of_doe_spec _ Hd) as Hok.
  destruct (civil_of_doe (z' mod 146097)) as [[yoe m] d].
  destruct Hok as (H1 & H2 & H3 & H4).
  unfold days_from_civil.
  replace (yoe + z' / 146097 * 400 + (if m <=? 2 then 1 else 0) -
           (if m <=? 2 then 1 else 0)) with (yoe + z' / 146097 * 400) by lia.
  rewrite Z.div_add by lia. rewrite Z.mod_add by lia.
  rewrite (Z.div_small yoe) by lia. rewrite (Z.mod_small yoe) by lia.
  rewrite H1. simpl.
  pose proof (Z.div_mod z' 146097 ltac:(lia)).
  destruct (m <=? 2); repeat split; lia.
Qed.

(** *** Digits *)

Lemma read_digits_app k j : forall acc s,
  read_digits (k + j) acc s =
  match read_digits k acc s with
  | Some (a, s') => read_digits j a s'
  | None => None
  end.
Proof.
  induction k as [|k IH]; intros acc s; simpl; [reflexivity|].
  destruct s as [|c r]; [reflexivity|].
  destruct (digit_value c); [apply IH | reflexivity].
Qed.

Lemma digit_value_char v :
  0 <= v < 10 -> digit_value (Z.to_N (48 + v)) = Some v.
Proof.
  intros H. unfold digit_value.
  assert (E1 : (48 <=? Z.to_N (48 + v))%N = true) by (apply N.leb_le; lia).
  assert (E2 : (Z.to_N (48 + v) <=? 57)%N = true) by (apply N.leb_le; lia).
  rewrite E1, E2. cbn [andb]. f_equal. rewrite Z2N.id; lia.
Qed.

Lemma digits_succ k n :
  digits (S k) n = digits k (n / 10) ++ [Z.to_N (48 + n mod 10)].
Proof. reflexivity. Qed.

(** Reading back the [k] digits of a number that fits in [k] digits. *)
Lemma read_digits_digits k : forall n acc rest,
  0 <= n < 10 ^ Z.of_nat k ->
  read_digits k acc (digits k n ++ rest) =
  Some (acc * 10 ^ Z.of_nat k + n, rest).
Proof.
  induction k as [|k IH]; intros n acc rest H.
  - simpl in *. f_equal. f_equal. lia.
  - rewrite Nat2Z.inj_succ, Z.pow_succ_r in H by lia.
    rewrite digits_succ, <- app_assoc.
    replace (S k) with (k + 1)%nat by lia.
    rewrite read_digits_app, IH.
    2:{ split; [apply Z.div_pos; lia | apply Z.div_lt_upper_bound; lia]. }
    cbn [read_digits app].
    rewrite digit_value_char by (apply Z.mod_pos_bound; lia).
    f_equal. f_equal.
    replace (Z.of_nat (k + 1)) with (Z.succ (Z.of_nat k)) by lia.
    rewrite Z.pow_succ_r by lia.
    pose proof (Z.div_mod n 10 ltac:(lia)). lia.
Qed.

Lemma read_two n rest :
  0 <= n < 100 -> read_digits 2 0 (digits 2 n ++ rest) = Some (n, rest).
Proof. intros H. now rewrite read_digits_digits by (simpl; lia). Qed.

Lemma read_three n rest :
  0 <= n < 1000 -> read_digits 3 0 (digits 3 n ++ rest) = Some (n, rest).
Proof. intros H. now rewrite read_digits_digits by (simpl; lia). Qed.

(** A non-empty run of digits begins with a digit character. *)
Lemma digits_head k n :
  exists c r, digits (S k) n = c :: r /\ (48 <= c <= 57)%N.
Proof.
  revert n. induction k as [|k IH]; intros n.
  - cbn [digits app]. eexists _, _. split; [reflexivity|].
    pose proof (Z.mod_pos_bound n 10 ltac:(lia)). lia.
  - destruct (IH (n / 10)) as (c & r & E & Hc).
    rewrite digits_succ, E. cbn [app]. eauto.
Qed.

Lemma read_year_cons c r :
  read_year (c :: r) =
  if (c =? 43)%N then read_digits 6 0 r
  else if (c =? 45)%N then
    match read_digits 6 0 r with
    | Some (y, r') => if y =? 0 then None else Some (- y, r')
    | None => None
    end
  else read_digits 4 0 (c :: r).
Proof. reflexivity. Qed.

Lemma read_year_string y rest :
  -999999 <= y <= 999999 ->
  read_year (year_string y ++ rest) = Some (y, rest).
Proof.
  intros H. unfold year_string.
  destruct ((0 <=? y) && (y <=? 9999)) eqn:E.
  - apply andb_true_iff in E. destruct E as [E1 E2].
    apply Z.leb_le in E1, E2.
    pose proof (read_digits_digits 4 y 0 rest ltac:(simpl; lia)) as R.
    destruct (digits_head 3 y) as (c & r & Ed & Hc).
    rewrite Ed in *. cbn [app] in *. rewrite read_year_cons.
    destruct (N.eqb_spec c 43) as [->|_]; [lia|].
    destruct (N.eqb_spec c 45) as [->|_]; [lia|].
    rewrite R. reflexivity.
  - destruct (y <? 0) eqn:Ey.
    + apply Z.ltb_lt in Ey.
      change ((lit "-" ++ digits 6 (Z.abs y)) ++ rest)
        with (45%N :: (digits 6 (Z.abs y) ++ rest)).
      rewrite read_year_cons. cbn [N.eqb Pos.eqb].
      rewrite (read_digits_digits 6) by (simpl; lia).
      replace (0 * 10 ^ Z.of_nat 6 + Z.abs y =? 0) with false
        by (symmetry; apply Z.eqb_neq; lia).
      f_equal. f_equal. lia.
    + apply Z.ltb_ge in Ey.
      change ((lit "+" ++ digits 6 (Z.abs y)) ++ rest)
        with (43%N :: (digits 6 (Z.abs y) ++ rest)).
      rewrite read_year_cons. cbn [N.eqb Pos.eqb].
      rewrite (read_digits_digits 6) by (simpl; lia).
      f_equal. f_equal. lia.
Qed.

Lemma expect_hit c rest : expect c (c :: rest) = Some rest.
Proof. unfold expect. now rewrite N.eqb_refl. Qed.

(** *** The round trip *)

(** [Date.parse(d.toISOString())] is the time value of [d]. *)
Lemma Date_parse_toISOString t :
  valid_time t = true -> Date_parse (toISOString t) = Some t.
Proof.
  intros Hv. pose proof Hv as Hv'. unfold valid_time, maxTime in Hv'.
  apply andb_true_iff in Hv'. destruct Hv' as [Hlo Hhi].
  apply Z.leb_le in Hlo, Hhi.
  unfold toISOString.
  pose proof (civil_from_days_spec (Day t)) as Hc.
  destruct (civil_from_days (Day t)) as [[y m] d].
  destruct Hc as (Hdays & Hm & Hd & Hy).
  assert (Hday : -100000000 <= Day t <= 100000000).
  { unfold Day, msPerDay. Z.to_euclidean_division_equations; lia. }
  assert (Hy' : -999999 <= y <= 999999).
  { revert Hy. Z.to_euclidean_division_equations; lia. }
  set (ms := TimeWithinDay t).
  assert (Hms : 0 <= ms < 86400000) by (apply Z.mod_pos_bound; reflexivity).
  assert (Hhh : 0 <= ms / 3600000 < 24)
    by (Z.to_euclidean_division_equations; lia).
  assert (Hmi : 0 <= ms / 60000 mod 60 < 60) by (apply Z.mod_pos_bound; lia).
  assert (Hss : 0 <= ms / 1000 mod 60 < 60) by (apply Z.mod_pos_bound; lia).
  assert (Hmmm : 0 <= ms mod 1000 < 1000) by (apply Z.mod_pos_bound; lia).
  unfold Date_parse.
  change (lit "-") with [45%N]. change (lit "T") with [84%N].
  change (lit ":") with [58%N]. change (lit ".") with [46%N].
  change (lit "Z") with [90%N].
  rewrite read_year_string by exact Hy'.
  cbn [app].
  repeat (first [ rewrite expect_hit
                | rewrite read_two by lia
                | rewrite read_three by lia ]).
  assert (Hb : (1 <=? m) && (m <=? 12) && (1 <=? d) && (d <=? 31) &&
               (ms / 3600000 <? 24) && (ms / 60000 mod 60 <? 60) &&
               (ms / 1000 mod 60 <? 60) = true).
  { rewrite !andb_true_iff, !Z.leb_le, !Z.ltb_lt. lia. }
  rewrite Hb. cbv zeta.
  replace (days_from_civil y m d * msPerDay + ms / 3600000 * 3600000 +
           ms / 60000 mod 60 * 60000 + ms / 1000 mod 60 * 1000 + ms mod 1000)
    with t.
  - now rewrite Hv.
  - rewrite Hdays. subst ms. unfold Day, TimeWithinDay, msPerDay.
    Z.to_euclidean_division_equations; lia.
Qed.

Lemma toISOString_truthy t : truthy (toISOString t) = true.
Proof.
  unfold toISOString. destruct (civil_from_days (Day t)) as [[y m] d].
  unfold year_string.
  destruct ((0 <=? y) && (y <=? 9999)).
  - destruct (digits_head 3 y) as (c & r & E & _). now rewrite E.
  - destruct (y <? 0); reflexivity.
Qed.

(** A message whose timestamp is a valid Date survives being written
    to the history key and read back. *)
Lemma revive_stringify now m :
  holds_instant (timestamp m) ->
  revive_message now (stringify_message m) = m.
Proof.
  destruct m as [i r c [t|]]; cbn [timestamp holds_instant]; [|tauto].
  intros Hv. unfold revive_message, stringify_message.
  cbn [stored_timestamp stored_id stored_role stored_content toJSON
       timestamp id role content if_truthy].
  rewrite toISOString_truthy. unfold Date_of_string.
  now rewrite Date_parse_toISOString.
Qed.

Lemma revive_stringify_all now ms :
  Forall (fun m => holds_instant (timestamp m)) ms ->
  map (revive_message now) (stringify_messages ms) = ms.
Proof.
  unfold stringify_messages.
  induction 1 as [|m l Hm _ IH]; simpl; [reflexivity|].
  now rewrite revive_stringify, IH.
Qed.

(** ** Events and runs *)

(** Case analysis on the event of a step that happened: one goal per
    event and per branch of its handler, with the new world
    substituted. *)
Ltac step_cases H :=
  match type of H with
  | step _ ?e = Some _ =>
      tryif is_var e then destruct e else idtac;
      cbn [step] in H;
      unfold handleSubmit_send, handleClearChat, handleSaveUserName,
        handleGenerateNewAvatars in H;
      repeat
        match type of H with
        | context [if ?b then _ else _] =>
            destruct b eqn:?; cbv beta iota zeta in H; try discriminate H
        | context [nth_error ?l ?k] =>
            destruct (nth_error l k) eqn:?; cbv beta iota zeta in H;
            try discriminate H
        end;
      injection H as <-
  end.

(** A property kept by every event is kept by every run. *)
Section RunInvariant.

Variable P : World -> Prop.
Hypothesis P_step : forall w e w', P w -> step w e = Some w' -> P w'.

Lemma run_invariant es : forall w w',
  P w -> run w es = Some w' -> P w'.
Proof.
  induction es as [|e es IH]; intros w w' Hw H; cbn in H.
  - now injection H as <-.
  - destruct (step w e) as [w1|] eqn:E; [|discriminate].
    eapply IH; [|exact H]. eapply P_step; eauto.
Qed.

End RunInvariant.

(** The worlds of the sample session are reachable. *)
Lemma reachable_world_after es :
  run Scenario.opened es <> None -> reachable (Scenario.world_after es).
Proof.
  intros H. exists Scenario.t0, 417%N, 902%N, es. split; [reflexivity|].
  unfold Scenario.world_after.
  change (first_activation Scenario.t0 417 902) with Scenario.opened.
  destruct (run Scenario.opened es); congruence.
Qed.

(** *** The two halves of [handleSubmit] *)

Lemma step_submit_blank w idNow tsNow :
  blank (userInput (ui w)) = true -> step w (Submit idNow tsNow) = Some w.
Proof.
  intros Hb. cbn [step]. unfold handleSubmit_send. now rewrite Hb.
Qed.

(** The guard of [handleSubmit] looks at the text only. *)
Lemma handleSubmit_send_guard r idNow tsNow cur :
  handleSubmit_send r idNow tsNow cur = None <-> blank (userInput r) = true.
Proof.
  unfold handleSubmit_send. destruct (blank (userInput r)); split; congruence.
Qed.

Lemma step_submit_accepted w idNow tsNow w' :
  blank (userInput (ui w)) = false ->
  step w (Submit idNow tsNow) = Some w' ->
  let m := userMessage (ui w) idNow tsNow in
  ui w' = setMessages (messages (ui w) ++ [m]) (ui w) /\
  inflight w' =
    inflight w ++
    [mkRequestBody (map role_content (messages (ui w) ++ [m]))
                   (selectedModel (ui w))].
Proof.
  intros Hb H. step_cases H; [congruence|]. split; reflexivity.
Qed.

Lemma step_settle w k o w' :
  step w (Settle k o) = Some w' ->
  ui w' = handleSubmit_resume o (ui w) /\ storage w' = storage w /\
  inflight w' = remove_nth k (inflight w) /\
  (k < List.length (inflight w))%nat.
Proof.
  intros H. step_cases H. repeat split.
  apply nth_error_Some. congruence.
Qed.

Lemma handleSubmit_resume_messages o s :
  messages (handleSubmit_resume o s) = messages s.
Proof.
  destruct o as [st|e]; cbn [handleSubmit_resume];
    [destruct (response_ok st)|]; reflexivity.
Qed.

Lemma handleSubmit_resume_isLoading o s :
  isLoading (handleSubmit_resume o s) = false.
Proof.
  destruct o as [st|e]; cbn [handleSubmit_resume];
    [destruct (response_ok st)|]; reflexivity.
Qed.

(** The continuation on a failed dispatch: the [catch], then the
    [finally]. *)
Lemma handleSubmit_resume_failed o s :
  failed o = true ->
  handleSubmit_resume o s =
  setIsLoading false
    (setError (Some (failure_text o))
       (match o with Response _ => setUserInput [] s | Rejected _ => s end)).
Proof.
  destruct o as [st|e]; cbn [failed handleSubmit_resume failure_text].
  - intros H. apply negb_true_iff in H. now rewrite H.
  - reflexivity.
Qed.

(** Only a submission hands a request to [fetch]. *)
Lemma only_submit_dispatches w e w' :
  step w e = Some w' ->
  (List.length (inflight w') <= List.length (inflight w))%nat \/
  exists idNow tsNow, e = Submit idNow tsNow.
Proof.
  intros H. step_cases H; try (right; eauto; fail); left;
    cbn [inflight]; try reflexivity.
  - unfold remove_nth. rewrite length_app, length_firstn, length_skipn. lia.
  - unfold mount. destruct (load_effect _ _ _ _ _). cbn. lia.
Qed.

(** ** Storage and state stay in agreement *)

Lemma save_effect_nonempty s ls :
  messages s <> [] ->
  save_effect s ls = set_chat_history (stringify_messages (messages s)) ls.
Proof. unfold save_effect. destruct (messages s); congruence. Qed.

(** Mounting over a storage in agreement with a state shows that
    state's messages and profile again and leaves the storage as it
    is. *)
Lemma mount_in_sync w now userSeed aiSeed :
  in_sync w ->
  let w' := mount now userSeed aiSeed (storage w) in
  messages (ui w') = messages (ui w) /\
  userName (ui w') = userName (ui w) /\
  userAvatar (ui w') = userAvatar (ui w) /\
  aiAvatar (ui w') = aiAvatar (ui w) /\
  storage w' = storage w.
Proof.
  intros [Hne Hd Hh [Hua Hut] [Haa Hat] Hn].
  destruct w as [s ls infl]. cbn [ui storage] in *.
  destruct ls as [n ua aa h]. cbn in Hh, Hua, Haa, Hn. subst h ua aa.
  destruct s as [un uav aav en tn ms inp ld cs sm er].
  cbn [messages userName userAvatar aiAvatar] in *.
  destruct ms as [|m l]; [congruence|].
  unfold mount, load_effect.
  cbn [healthcare_chat_username healthcare_user_avatar healthcare_ai_avatar
       healthcare_chat_history if_truthy].
  rewrite Hut. cbv beta iota zeta.
  cbn [healthcare_ai_avatar if_truthy]. rewrite Hat. cbv beta iota zeta.
  cbn [healthcare_chat_history].
  rewrite (revive_stringify_all now _ Hd).
  destruct n as [n|].
  - destruct Hn as [-> Hnt]. cbn [if_truthy]. rewrite Hnt. cbn. auto.
  - subst un. cbn. auto.
Qed.

Lemma in_sync_first_activation now userSeed aiSeed :
  valid_time now = true -> in_sync (first_activation now userSeed aiSeed).
Proof.
  intros Hv. unfold first_activation, mount, load_effect, empty_storage.
  cbn -[welcomeMessage stringify_messages user_avatar_url ai_avatar_url].
  constructor;
    cbn -[welcomeMessage stringify_messages user_avatar_url ai_avatar_url];
    try easy.
  repeat constructor. exact Hv.
Qed.

(** Every event keeps storage and state in agreement. *)
Lemma step_in_sync w e w' : in_sync w -> step w e = Some w' -> in_sync w'.
Proof.
  intros Hs H. pose proof Hs as [Hne Hd Hh [Hua Hut] [Haa Hat] Hn].
  step_cases H; try exact Hs;
    try (constructor; cbn; auto; fail).
  - (* Submit, accepted *)
    match goal with
    | E : _ && _ = true |- _ => apply andb_true_iff in E; destruct E as [_ Ev]
    end.
    rewrite save_effect_nonempty
      by (cbn [messages setMessages]; destruct (messages (ui w)); discriminate).
    constructor; cbn; auto.
    + destruct (messages (ui w)); discriminate.
    + apply Forall_app. split; [exact Hd|]. repeat constructor. exact Ev.
  - (* Settle *)
    constructor; cbn [ui storage];
      rewrite ?handleSubmit_resume_messages; auto;
      destruct o as [st|er]; cbn [handleSubmit_resume];
      try destruct (response_ok st); cbn; auto.
  - (* ClearChat *)
    rewrite save_effect_nonempty by (cbn; discriminate).
    constructor; cbn -[welcomeMessage]; auto; discriminate.
  - (* SaveUserName, with a name *)
    constructor; cbn; auto. split; [reflexivity|].
    now apply blank_false_truthy.
  - (* Reload *)
    pose proof (mount_in_sync w now userSeed aiSeed Hs)
      as (E1 & E2 & E3 & E4 & E5).
    constructor; rewrite ?E1, ?E2, ?E3, ?E4, ?E5; auto.
Qed.

Lemma reachable_in_sync w : reachable w -> in_sync w.
Proof.
  intros (now & us & ai & es & Hv & Hr).
  eapply (run_invariant in_sync step_in_sync); [|exact Hr].
  now apply in_sync_first_activation.
Qed.

(** *** Reloading *)

(** In a reachable state the history key is up to date: running the
    save effect again writes what is there. *)
Lemma save_effect_in_sync w :
  in_sync w -> save_effect (ui w) (storage w) = storage w.
Proof.
  intros [Hne _ Hh _ _ _]. rewrite save_effect_nonempty by exact Hne.
  destruct (storage w) as [n ua aa h]. cbn in Hh. subst h. reflexivity.
Qed.

(** C7.  In every reachable state, saving the messages (the save
    effect; the profile keys are written by the handlers that change
    them) and mounting the component again over the storage (a reload)
    shows the same messages in the same order, each with the timestamp
    it had (the ISO text written by [toJSON] reads back to the same
    millisecond), and the same display name and avatars. *)
Theorem reload_reproduces_session w now userSeed aiSeed :
  reachable w ->
  let saved := save_effect (ui w) (storage w) in
  let w' := mount now userSeed aiSeed saved in
  messages (ui w') = messages (ui w) /\
  map timestamp (messages (ui w')) = map timestamp (messages (ui w)) /\
  userName (ui w') = userName (ui w) /\
  userAvatar (ui w') = userAvatar (ui w) /\
  aiAvatar (ui w') = aiAvatar (ui w).
Proof.
  intros Hr. apply reachable_in_sync in Hr.
  cbv zeta. rewrite (save_effect_in_sync w Hr).
  destruct (mount_in_sync w now userSeed aiSeed Hr) as (E1 & E2 & E3 & E4 & _).
  rewrite E1. auto.
Qed.

(** C7, on a session with two failed requests, a renamed user, fresh
    avatars and an earlier reload. *)
Lemma reload_reproduces_session_witness :
  let w := Scenario.world_after Scenario.long_session in
  let w' := mount (Scenario.t2 + 9000) 7 8
                  (save_effect (ui w) (storage w)) in
  reachable w /\
  messages (ui w') = messages (ui w) /\
  map timestamp (messages (ui w')) = map timestamp (messages (ui w)) /\
  userName (ui w') = userName (ui w) /\
  userAvatar (ui w') = userAvatar (ui w) /\
  aiAvatar (ui w') = aiAvatar (ui w).
Proof.
  intros w w'.
  assert (Hr : reachable w)
    by (apply reachable_world_after; vm_compute; discriminate).
  split; [exact Hr|].
  exact (reload_reproduces_session w (Scenario.t2 + 9000) 7 8 Hr).
Defined.

(** ** The loading flag *)

Lemma load_effect_isLoading now us ai s ls :
  isLoading (fst (load_effect now us ai s ls)) = isLoading s.
Proof.
  unfold load_effect.
  destruct ls as [[[|? ?]|] [[|? ?]|] [[|? ?]|] [?|]]; reflexivity.
Qed.

Lemma mount_isLoading now us ai ls :
  isLoading (ui (mount now us ai ls)) = false.
Proof.
  unfold mount.
  pose proof (load_effect_isLoading now us ai initial_state ls) as H.
  destruct (load_effect now us ai initial_state ls) as [s ls']. exact H.
Qed.

(** No event sets the flag. *)
Lemma step_isLoading w e w' :
  isLoading (ui w) = false -> step w e = Some w' -> isLoading (ui w') = false.
Proof.
  intros Hl H. step_cases H; try exact Hl.
  - apply handleSubmit_resume_isLoading.
  - apply mount_isLoading.
Qed.

(** C10.  In every state the chat component can reach, the loading
    flag is false: no handler and no effect sets it to true (the only
    write is the [finally] of [handleSubmit], which writes false), so the
    submitting state is never entered, the spinner is never shown and
    the submit button is disabled by a blank text only. *)
Theorem isLoading_never_set w :
  reachable w ->
  isLoading (ui w) = false /\
  spinner_shown (ui w) = false /\
  submit_disabled (ui w) = blank (userInput (ui w)).
Proof.
  intros (now & us & ai & es & _ & Hr).
  assert (Hl : isLoading (ui w) = false).
  { eapply (run_invariant _ step_isLoading); [|exact Hr].
    apply mount_isLoading. }
  unfold spinner_shown, submit_disabled. rewrite Hl. repeat split.
Qed.

(** C10, on the session whose second request is answered 200. *)
Lemma isLoading_never_set_witness :
  reachable (Scenario.world_after Scenario.answer) /\
  isLoading (ui (Scenario.world_after Scenario.answer)) = false.
Proof.
  assert (Hr : reachable (Scenario.world_after Scenario.answer))
    by (apply reachable_world_after; vm_compute; discriminate).
  split; [exact Hr|]. exact (proj1 (isLoading_never_set _ Hr)).
Defined.

(** ** The message sequence and the ids *)

(** What an event does to the message sequence: nothing, a reset to
    the welcome message, or the append of a user message. *)
Lemma step_messages w e w' :
  in_sync w -> step w e = Some w' ->
  messages (ui w') = messages (ui w) \/
  (exists now, messages (ui w') = [welcomeMessage now]) \/
  (exists idNow tsNow, e = Submit idNow tsNow /\
     messages (ui w') = messages (ui w) ++ [userMessage (ui w) idNow tsNow]).
Proof.
  intros Hs H. step_cases H; try (left; reflexivity).
  - right. right. exists idNow, tsNow. split; reflexivity.
  - left. apply handleSubmit_resume_messages.
  - right. left. exists now. reflexivity.
  - left. now apply (mount_in_sync w).
Qed.

Lemma StronglySorted_snoc ts a :
  StronglySorted Z.lt ts -> (forall x, In x ts -> x < a) ->
  StronglySorted Z.lt (ts ++ [a]).
Proof.
  induction 1 as [|x l Hl IH Hx]; intros Ha; cbn.
  - repeat constructor.
  - constructor.
    + apply IH. intros y Hy. apply Ha. now right.
    + apply Forall_app. split; [exact Hx|]. constructor; [|constructor].
      apply Ha. now left.
Qed.

(** Along a run whose submissions meet increasing clock values, all
    above the ones met so far, the ids stay the renderings of an
    increasing list of clock values. *)
Lemma run_ids es : forall w ts w',
  in_sync w -> ids_from w ts ->
  StronglySorted Z.lt ts -> StronglySorted Z.lt (submit_readings es) ->
  (forall a b, In a ts -> In b (submit_readings es) -> a < b) ->
  run w es = Some w' ->
  exists ts', ids_from w' ts' /\ StronglySorted Z.lt ts'.
Proof.
  induction es as [|e es IH]; intros w ts w' Hs Hi Hts Hrs Hlt H; cbn in H.
  - injection H as <-. eauto.
  - destruct (step w e) as [w1|] eqn:E; [|discriminate].
    pose proof (step_in_sync _ _ _ Hs E) as Hs1.
    assert (Hrs' : StronglySorted Z.lt (submit_readings es)).
    { destruct e; cbn in Hrs; auto. now inversion Hrs. }
    destruct (step_messages _ _ _ Hs E) as [Em|[[now Em]|(a & b & -> & Em)]].
    + apply (IH w1 ts w' Hs1); auto.
      * unfold ids_from. now rewrite Em.
      * intros x y Hx Hy. apply Hlt; [exact Hx|].
        destruct e; cbn; auto.
    + apply (IH w1 [] w' Hs1); auto.
      * unfold ids_from. now rewrite Em.
      * constructor.
      * intros x y [].
    + cbn in Hrs, Hlt. inversion Hrs as [|? ? _ Hall]; subst.
      apply (IH w1 (ts ++ [a]) w' Hs1); auto.
      * unfold ids_from in *. rewrite Em, !map_app, Hi. reflexivity.
      * apply StronglySorted_snoc; [exact Hts|].
        intros x Hx. apply Hlt; [exact Hx | now left].
      * intros x y Hx Hy. apply in_app_or in Hx. destruct Hx as [Hx|[<-|[]]].
        -- apply Hlt; [exact Hx | now right].
        -- rewrite Forall_forall in Hall. now apply Hall.
Qed.

Lemma NoDup_string_of_Z ts :
  StronglySorted Z.lt ts -> NoDup (map string_of_Z ts).
Proof.
  induction 1 as [|x l Hl IH Hx]; cbn; constructor; auto.
  intros Hin. apply in_map_iff in Hin. destruct Hin as (y & Ey & Hy).
  apply string_of_Z_inj in Ey. subst y.
  rewrite Forall_forall in Hx. specialize (Hx x Hy). lia.
Qed.

Lemma ids_from_NoDup w ts :
  ids_from w ts -> StronglySorted Z.lt ts -> NoDup (map id (messages (ui w))).
Proof.
  unfold ids_from. intros -> Hs. constructor.
  - intros Hin. apply in_map_iff in Hin. destruct Hin as (y & Ey & _).
    exact (string_of_Z_not_welcome y Ey).
  - now apply NoDup_string_of_Z.
Qed.

(** The readings of the submissions that follow an event are among the
    readings from that event on. *)
Lemma submit_readings_tail e es :
  incl (submit_readings es) (submit_readings (e :: es)).
Proof.
  destruct e; cbn [submit_readings]; try apply incl_refl.
  apply incl_tl, incl_refl.
Qed.

(** Along any run, whatever the clock reads, the ids stay the id of the
    welcome message followed by renderings of clock values read by
    submissions. *)
Lemma run_ids_readings es : forall w ts w',
  in_sync w -> ids_from w ts -> run w es = Some w' ->
  exists ts', ids_from w' ts' /\ incl ts' (ts ++ submit_readings es).
Proof.
  induction es as [|e es IH]; intros w ts w' Hs Hi H; cbn [run] in H.
  - injection H as <-. exists ts. split; [exact Hi|].
    cbn [submit_readings]. rewrite app_nil_r. apply incl_refl.
  - destruct (step w e) as [w1|] eqn:E; [|discriminate].
    pose proof (step_in_sync _ _ _ Hs E) as Hs1.
    destruct (step_messages _ _ _ Hs E) as [Em|[[now Em]|(a & b & -> & Em)]].
    + destruct (IH w1 ts w' Hs1) as (ts' & Hi' & Hin); auto.
      { unfold ids_from. now rewrite Em. }
      exists ts'. split; [exact Hi'|].
      intros x Hx. apply Hin, in_app_or in Hx. apply in_or_app.
      destruct Hx as [Hx|Hx]; [now left|].
      right. now apply submit_readings_tail.
    + destruct (IH w1 [] w' Hs1) as (ts' & Hi' & Hin); auto.
      { unfold ids_from. now rewrite Em. }
      exists ts'. split; [exact Hi'|].
      intros x Hx. apply Hin in Hx. cbn [app] in Hx. apply in_or_app.
      right. now apply submit_readings_tail.
    + destruct (IH w1 (ts ++ [a]) w' Hs1) as (ts' & Hi' & Hin); auto.
      { unfold ids_from in *. rewrite Em, !map_app, Hi. reflexivity. }
      exists ts'. split; [exact Hi'|].
      cbn [submit_readings]. rewrite <- app_assoc in Hin. exact Hin.
Qed.

Lemma map_string_of_Z_inj ts : forall ts',
  map string_of_Z ts = map string_of_Z ts' -> ts = ts'.
Proof.
  induction ts as [|a ts IH]; intros [|b ts'] H; cbn [map] in H;
    try discriminate; [reflexivity|].
  injection H as Ha Ht. apply string_of_Z_inj in Ha. subst b.
  f_equal. now apply IH.
Qed.

(** C8, as the code has it.  In every state a session reaches, whatever
    the clock reads: an event leaves the message sequence as it is,
    appends one user message at its end, or replaces it by the single
    welcome message, so no message is reordered or removed on its own;
    and the ids shown are the fixed id of the welcome message followed
    by decimal renderings of values of [Date.now()] read by the
    submissions of the session.  When the submissions read strictly
    increasing values, those readings are strictly increasing along the
    sequence and the ids are pairwise distinct. *)
Theorem ids_under_increasing_clock now userSeed aiSeed es w :
  valid_time now = true ->
  run (first_activation now userSeed aiSeed) es = Some w ->
  (forall e w', step w e = Some w' ->
     messages (ui w') = messages (ui w) \/
     (exists idNow tsNow,
        e = Submit idNow tsNow /\
        messages (ui w') =
          messages (ui w) ++ [userMessage (ui w) idNow tsNow] /\
        id (userMessage (ui w) idNow tsNow) = string_of_Z idNow) \/
     (exists t, messages (ui w') = [welcomeMessage t])) /\
  (exists ts,
     map id (messages (ui w)) = welcome_id :: map string_of_Z ts /\
     incl ts (submit_readings es) /\
     (StronglySorted Z.lt (submit_readings es) ->
      StronglySorted Z.lt ts /\ NoDup (map id (messages (ui w))))).
Proof.
  intros Hv Hr.
  pose proof (in_sync_first_activation now userSeed aiSeed Hv) as Hs0.
  pose proof (run_invariant in_sync step_in_sync _ _ _ Hs0 Hr) as Hs.
  split.
  - intros e w' E.
    destruct (step_messages _ _ _ Hs E) as [Em|[[t Em]|(a & b & -> & Em)]].
    + left. exact Em.
    + right. right. eauto.
    + right. left. exists a, b. repeat split. exact Em.
  - destruct (run_ids_readings es _ [] w Hs0) as (ts & Hi & Hin);
      [reflexivity | exact Hr |].
    exists ts. split; [exact Hi|]. split; [exact Hin|]. intros Hrs.
    destruct (run_ids es _ [] w Hs0) as (ts2 & Hi2 & Hts2); auto.
    + reflexivity.
    + constructor.
    + intros a b [].
    + assert (E : ts = ts2).
      { apply map_string_of_Z_inj. unfold ids_from in Hi, Hi2.
        rewrite Hi in Hi2. now injection Hi2. }
      subst ts2. split; [exact Hts2|]. eapply ids_from_NoDup; eauto.
Qed.

(** C8 as the code has it, on a session with two submissions a minute
    apart, two failed requests and a reload. *)
Lemma ids_under_increasing_clock_witness :
  let w := Scenario.world_after Scenario.long_session in
  valid_time Scenario.t0 = true /\
  run (first_activation Scenario.t0 417 902) Scenario.long_session = Some w /\
  StronglySorted Z.lt (submit_readings Scenario.long_session) /\
  NoDup (map id (messages (ui w))).
Proof.
  intros w.
  assert (Hv : valid_time Scenario.t0 = true) by reflexivity.
  assert (Hr : run (first_activation Scenario.t0 417 902)
                   Scenario.long_session = Some w)
    by (vm_compute; reflexivity).
  assert (Hs : StronglySorted Z.lt (submit_readings Scenario.long_session)).
  { cbn. repeat constructor. }
  destruct (ids_under_increasing_clock _ _ _ _ _ Hv Hr)
    as (_ & ts & _ & _ & Hn).
  split; [exact Hv|]. split; [exact Hr|]. split; [exact Hs|].
  exact (proj2 (Hn Hs)).
Defined.

(** C8 as worded fails: two submissions that read the same value of
    [Date.now()] give two messages with the same id. *)
Lemma ids_always_unique_fails : ~ Stated.ids_always_unique.
Proof.
  intros H.
  assert (Hr : reachable (Scenario.world_after Scenario.burst))
    by (apply reachable_world_after; vm_compute; discriminate).
  apply H in Hr. vm_compute in Hr.
  apply NoDup_cons_iff in Hr. destruct Hr as [_ Hr].
  apply NoDup_cons_iff in Hr. destruct Hr as [Hn _].
  apply Hn. left. reflexivity.
Qed.

(** ** Submissions and their outcome *)

(** A text made of white space only is turned down: nothing changes. *)
Lemma white_space_submission_ignored w idNow tsNow :
  forallb is_white_space (userInput (ui w)) = true ->
  step w (Submit idNow tsNow) = Some w.
Proof. intros H. apply step_submit_blank, blank_iff, H. Qed.

(** C2 on the code.  A blank text is turned down, changing nothing, but
    a submission is not turned down while an earlier one is still in
    flight: with the first request unsettled and the question still in
    the input buffer, a second [handleSubmit] appends a second user
    message and hands a second request to [fetch]. *)
Theorem second_submit_while_in_flight_accepted :
  let w := Scenario.world_after Scenario.ask in
  reachable w /\
  List.length (inflight w) = 1%nat /\
  (exists w',
      step w (Submit Scenario.t2 Scenario.t2) = Some w' /\
      messages (ui w') =
        messages (ui w) ++ [userMessage (ui w) Scenario.t2 Scenario.t2] /\
      List.length (inflight w') = 2%nat) /\
  ~ Stated.rejected_when_blank_or_submitting w Scenario.t2 Scenario.t2.
Proof.
  intros w. split; [|split; [|split]].
  - apply reachable_world_after. vm_compute. discriminate.
  - vm_compute. reflexivity.
  - eexists. split; [vm_compute; reflexivity|].
    split; vm_compute; reflexivity.
  - intros H. unfold Stated.rejected_when_blank_or_submitting in H.
    assert (Hi : inflight w <> []) by (vm_compute; discriminate).
    specialize (H (or_intror Hi)). vm_compute in H. discriminate H.
Qed.

(** C3.  When the [fetch] of a submission that was sent fails (it
    rejects, or the response is not [ok]), the message sequence is left
    as it is, so no assistant message is appended after the user
    message, and the failure text becomes the session error, replacing
    whatever error was recorded before; for a response that text is
    "HTTP error! status: " followed by the status code. *)
Theorem failed_dispatch_recorded w k o w' :
  failed o = true ->
  step w (Settle k o) = Some w' ->
  messages (ui w') = messages (ui w) /\
  error (ui w') = Some (failure_text o) /\
  (forall status, o = Response status ->
     error (ui w') = Some (lit "HTTP error! status: " ++ string_of_N status)).
Proof.
  intros Hf H. apply step_settle in H. destruct H as (-> & _).
  rewrite handleSubmit_resume_failed by exact Hf.
  split; [destruct o; reflexivity|]. split; [reflexivity|].
  intros status ->. reflexivity.
Qed.

(** C3, on the session where the endpoint answers 500. *)
Lemma failed_dispatch_recorded_witness :
  failed (Response 500) = true /\
  step (Scenario.world_after Scenario.ask) (Settle 0 (Response 500)) =
    Some (Scenario.world_after Scenario.refuse) /\
  messages (ui (Scenario.world_after Scenario.refuse)) =
    messages (ui (Scenario.world_after Scenario.ask)) /\
  error (ui (Scenario.world_after Scenario.refuse)) =
    Some (lit "HTTP error! status: 500").
Proof.
  assert (Hf : failed (Response 500) = true) by reflexivity.
  assert (Hs : step (Scenario.world_after Scenario.ask)
                    (Settle 0 (Response 500)) =
               Some (Scenario.world_after Scenario.refuse))
    by (vm_compute; reflexivity).
  destruct (failed_dispatch_recorded _ _ _ _ Hf Hs) as (Hm & He & _).
  split; [exact Hf|]. split; [exact Hs|]. split; [exact Hm | exact He].
Defined.

(** A dispatch that fails right after its submission: the sequence is
    the former one followed by the user message. *)
Lemma failed_submission w idNow tsNow w1 o w2 :
  blank (userInput (ui w)) = false ->
  step w (Submit idNow tsNow) = Some w1 ->
  failed o = true ->
  step w1 (Settle (List.length (inflight w)) o) = Some w2 ->
  messages (ui w2) = messages (ui w) ++ [userMessage (ui w) idNow tsNow] /\
  error (ui w2) = Some (failure_text o).
Proof.
  intros Hb H1 Hf H2.
  apply step_submit_accepted in H1; [|exact Hb]. destruct H1 as [Hu _].
  apply step_settle in H2. destruct H2 as (-> & _).
  rewrite handleSubmit_resume_failed by exact Hf. rewrite Hu.
  split; [destruct o|]; reflexivity.
Qed.

(** C1, as the code has it.  When the [fetch] of an accepted submission
    resolves with an [ok] response, the loading flag is false (the
    controller is idle), the input buffer is empty, and the session
    error is what it was before the submission: nothing clears it. *)
Theorem success_returns_to_idle w idNow tsNow w1 k status w2 :
  blank (userInput (ui w)) = false ->
  step w (Submit idNow tsNow) = Some w1 ->
  response_ok status = true ->
  step w1 (Settle k (Response status)) = Some w2 ->
  isLoading (ui w2) = false /\
  userInput (ui w2) = [] /\
  error (ui w2) = error (ui w).
Proof.
  intros Hb H1 Hok H2.
  apply step_submit_accepted in H1; [|exact Hb]. destruct H1 as [Hu _].
  apply step_settle in H2. destruct H2 as (-> & _).
  cbn [handleSubmit_resume]. rewrite Hok, Hu. repeat split.
Qed.

(** C1 as the code has it, on the session whose second request is
    answered 200. *)
Lemma success_returns_to_idle_witness :
  let w := Scenario.world_after Scenario.retype in
  let w2 := Scenario.world_after Scenario.answer in
  blank (userInput (ui w)) = false /\
  response_ok 200 = true /\
  isLoading (ui w2) = false /\
  userInput (ui w2) = [] /\
  error (ui w2) = error (ui w).
Proof.
  intros w w2.
  assert (Hb : blank (userInput (ui w)) = false) by (vm_compute; reflexivity).
  assert (H1 : step w (Submit Scenario.t2 Scenario.t2) =
               Some (Scenario.world_after
                       (Scenario.retype ++ [Submit Scenario.t2 Scenario.t2])))
    by (vm_compute; reflexivity).
  assert (Hok : response_ok 200 = true) by reflexivity.
  assert (H2 : step (Scenario.world_after
                       (Scenario.retype ++ [Submit Scenario.t2 Scenario.t2]))
                    (Settle 0 (Response 200)) = Some w2)
    by (vm_compute; reflexivity).
  split; [exact Hb|]. split; [exact Hok|].
  exact (success_returns_to_idle _ _ _ _ _ _ _ Hb H1 Hok H2).
Defined.

(** C1 as worded fails: after the 500 of the first request, the second
    request is answered 200, yet the sequence ends with the user message
    of that request and the error of the first is still recorded. *)
Lemma success_appends_reply_fails :
  let w := Scenario.world_after Scenario.retype in
  let w2 := Scenario.world_after Scenario.answer in
  ~ Stated.success_appends_reply w Scenario.t2 Scenario.t2 200 /\
  messages (ui w2) =
    messages (ui w) ++ [userMessage (ui w) Scenario.t2 Scenario.t2] /\
  error (ui w2) = Some (lit "HTTP error! status: 500").
Proof.
  intros w w2. split; [|split; vm_compute; reflexivity].
  intros H.
  specialize (H (Scenario.world_after
                   (Scenario.retype ++ [Submit Scenario.t2 Scenario.t2]))
                w2).
  destruct H as (_ & _ & He); try (vm_compute; reflexivity).
  vm_compute in He. discriminate He.
Qed.

(** ** Order of the effects of a submission *)

(** C6, as the code has it.  An accepted submission appends the user
    message (role user) before the request is handed to [fetch], and at
    that point records no error and leaves the input buffer as typed;
    the buffer is emptied when the [fetch] resolves with a response (of
    any status) and kept when it rejects.  The error is recorded only
    by that later step. *)
Theorem user_message_precedes_dispatch w idNow tsNow w1 :
  blank (userInput (ui w)) = false ->
  step w (Submit idNow tsNow) = Some w1 ->
  messages (ui w1) = messages (ui w) ++ [userMessage (ui w) idNow tsNow] /\
  role (userMessage (ui w) idNow tsNow) = user /\
  userInput (ui w1) = userInput (ui w) /\
  error (ui w1) = error (ui w) /\
  (forall k o w2, step w1 (Settle k o) = Some w2 ->
     userInput (ui w2) =
     match o with
     | Response _ => []
     | Rejected _ => userInput (ui w1)
     end).
Proof.
  intros Hb H. apply step_submit_accepted in H; [|exact Hb].
  destruct H as [Hu _]. rewrite Hu. repeat split.
  intros k o w2 H2. apply step_settle in H2. destruct H2 as (-> & _).
  rewrite Hu. destruct o as [st|e]; cbn [handleSubmit_resume];
    [destruct (response_ok st)|]; reflexivity.
Qed.

(** C6 as the code has it, on the first submission of the session. *)
Lemma user_message_precedes_dispatch_witness :
  let w := Scenario.world_after [ChangeInput Scenario.question] in
  let w1 := Scenario.world_after Scenario.ask in
  blank (userInput (ui w)) = false /\
  step w (Submit Scenario.t1 Scenario.t1) = Some w1 /\
  messages (ui w1) =
    messages (ui w) ++ [userMessage (ui w) Scenario.t1 Scenario.t1] /\
  userInput (ui w1) = Scenario.question /\
  error (ui w1) = None.
Proof.
  intros w w1.
  assert (Hb : blank (userInput (ui w)) = false) by (vm_compute; reflexivity).
  assert (H1 : step w (Submit Scenario.t1 Scenario.t1) = Some w1)
    by (vm_compute; reflexivity).
  destruct (user_message_precedes_dispatch _ _ _ _ Hb H1)
    as (Hm & _ & Hi & He & _).
  split; [exact Hb|]. split; [exact H1|]. split; [exact Hm|].
  split; [exact Hi | exact He].
Defined.

(** C6 as worded fails: with the request in flight the input buffer
    still holds the question. *)
Lemma input_cleared_before_dispatch_fails :
  ~ Stated.input_cleared_before_dispatch
      (Scenario.world_after [ChangeInput Scenario.question])
      Scenario.t1 Scenario.t1.
Proof.
  intros H.
  specialize (H (Scenario.world_after Scenario.ask)).
  destruct H as (_ & _ & Hi); try (vm_compute; reflexivity).
  vm_compute in Hi. discriminate Hi.
Qed.

(** ** The request body *)

(** C9.  The body handed to [fetch] by an accepted submission consists
    of two fields.  [messages] has one entry for every message of the
    sequence as it stands after the user message was appended, in the
    same order, and the entry of a message is the pair of that
    message's role and that message's content: the last entry is the
    user role with the text submitted, and neither an id nor a
    timestamp is part of an entry.  [model_type] is the selected
    backend. *)
Theorem dispatch_body_is_projection w idNow tsNow w' :
  blank (userInput (ui w)) = false ->
  step w (Submit idNow tsNow) = Some w' ->
  exists body,
    inflight w' = inflight w ++ [body] /\
    body_messages body =
      map (fun m => (role m, content m)) (messages (ui w')) /\
    messages (ui w') = messages (ui w) ++ [userMessage (ui w) idNow tsNow] /\
    body_messages body =
      map (fun m => (role m, content m)) (messages (ui w)) ++
      [(user, userInput (ui w))] /\
    List.length (body_messages body) = S (List.length (messages (ui w))) /\
    (forall k m, nth_error (messages (ui w')) k = Some m ->
       nth_error (body_messages body) k = Some (role m, content m)) /\
    model_type body = selectedModel (ui w) /\
    selectedModel (ui w') = selectedModel (ui w).
Proof.
  intros Hb H. apply step_submit_accepted in H; [|exact Hb].
  cbv zeta in H. destruct H as [Hu Hi]. eexists. split; [exact Hi|].
  rewrite Hu. cbn [body_messages model_type messages selectedModel
                   setMessages].
  split; [reflexivity|]. split; [reflexivity|].
  split; [now rewrite map_app|].
  split; [rewrite length_map, length_app; cbn [List.length]; lia|].
  split; [|split; reflexivity].
  intros k m Hk. unfold role_content.
  rewrite nth_error_map, Hk. reflexivity.
Qed.

(** C9, on the first submission of the session. *)
Lemma dispatch_body_is_projection_witness :
  let w := Scenario.world_after [ChangeInput Scenario.question] in
  let w' := Scenario.world_after Scenario.ask in
  blank (userInput (ui w)) = false /\
  step w (Submit Scenario.t1 Scenario.t1) = Some w' /\
  exists body,
    inflight w' = inflight w ++ [body] /\
    body_messages body =
      [(assistant, welcome_content); (user, Scenario.question)] /\
    model_type body = ollama.
Proof.
  intros w w'.
  assert (Hb : blank (userInput (ui w)) = false) by (vm_compute; reflexivity).
  assert (H1 : step w (Submit Scenario.t1 Scenario.t1) = Some w')
    by (vm_compute; reflexivity).
  split; [exact Hb|]. split; [exact H1|].
  destruct (dispatch_body_is_projection _ _ _ _ Hb H1)
    as (body & Hi & _ & _ & Hm & _ & _ & Ht & _).
  exists body. split; [exact Hi|]. split.
  - rewrite Hm. vm_compute. reflexivity.
  - rewrite Ht. vm_compute. reflexivity.
Defined.

(** ** Clearing the chat *)

(** C4, as the code has it.  [handleClearChat] replaces the message
    sequence by the single welcome message, whose role is assistant,
    and leaves the recorded error, the selected backend, the display
    name and both avatars (in the state and in storage) as they
    were. *)
Theorem handleClearChat_frame now s ls :
  let s' := fst (handleClearChat now s ls) in
  let ls' := snd (handleClearChat now s ls) in
  messages s' = [welcomeMessage now] /\
  role (welcomeMessage now) = assistant /\
  error s' = error s /\
  selectedModel s' = selectedModel s /\
  userName s' = userName s /\
  userAvatar s' = userAvatar s /\
  aiAvatar s' = aiAvatar s /\
  healthcare_chat_username ls' = healthcare_chat_username ls /\
  healthcare_user_avatar ls' = healthcare_user_avatar ls /\
  healthcare_ai_avatar ls' = healthcare_ai_avatar ls.
Proof. cbv zeta. unfold handleClearChat. cbn [fst snd]. repeat split. Qed.

(** C4 as worded fails: clearing the chat after a failed request leaves
    the error of that request recorded. *)
Lemma clear_resets_error_fails :
  ~ Stated.clear_resets_error Scenario.t2
      (ui (Scenario.world_after Scenario.refuse))
      (storage (Scenario.world_after Scenario.refuse)).
Proof.
  unfold Stated.clear_resets_error. intros (_ & He & _).
  vm_compute in He. discriminate He.
Qed.

(** ** Health probes *)

Lemma is_online_iff d : is_online d = true <-> d = Some (lit "online").
Proof.
  destruct d as [s|]; cbn [is_online]; [|split; discriminate].
  unfold jsstring_eqb.
  destruct (list_eq_dec N.eq_dec s (lit "online")); split; congruence.
Qed.

(** The chat component's probe: connected for a body whose status is
    "online", disconnected for any other body, for the body [null]
    and when the probe throws. *)
Lemma checkOllamaStatus_spec o :
  checkOllamaStatus o =
  match o with
  | ProbeData (Some s) =>
      if jsstring_eqb s (lit "online") then connected else disconnected
  | _ => disconnected
  end.
Proof. destruct o as [| |[s|]]; reflexivity. Qed.

(** The chat component's probe of a status URL served by [GET]:
    connected exactly when Ollama's own health URL answered [ok]. *)
Lemma checkOllamaStatus_of_GET r :
  checkOllamaStatus (probe_of_GET r) =
  match r with
  | UpstreamResponse true => connected
  | _ => disconnected
  end.
Proof. destruct r as [[|]|]; reflexivity. Qed.

(** The status panel when both probes are read: each flag follows its
    own body. *)
Lemma checkStatus_both_read st d1 d2 :
  ApiStatus.checkStatus st (ProbeData d1) (ProbeData d2) =
  ApiStatus.mkStatus (is_online d1) (is_online d2).
Proof. reflexivity. Qed.

(** The status panel when a probe throws: nothing is set. *)
Lemma checkStatus_threw st o1 o2 :
  o1 = ProbeThrew \/ o2 = ProbeThrew -> ApiStatus.checkStatus st o1 o2 = st.
Proof. intros [-> | ->]; [|destruct o1]; reflexivity. Qed.

(** The status panel when a body is [null]: nothing is set either. *)
Lemma checkStatus_null st o1 o2 :
  o1 = ProbeNull \/ o2 = ProbeNull -> ApiStatus.checkStatus st o1 o2 = st.
Proof. intros [-> | ->]; [|destruct o1]; reflexivity. Qed.

(** C5 on the code.  In the status panel, an Ollama probe whose body
    reports "online" does not set the Ollama flag when the OpenRouter
    probe throws: the shared [catch] sets nothing and both flags stay
    as they were (false after mount).  The chat component's own probe
    of the same body does set connected. *)
Theorem online_probe_lost_when_other_throws :
  ApiStatus.after_mount (ProbeData (Some (lit "online"))) ProbeThrew =
    ApiStatus.initial /\
  ApiStatus.ollama
    (ApiStatus.after_mount (ProbeData (Some (lit "online"))) ProbeThrew) =
    false /\
  checkOllamaStatus (ProbeData (Some (lit "online"))) = connected /\
  ~ Stated.probes_independent (ProbeData (Some (lit "online"))) ProbeThrew.
Proof.
  split; [reflexivity|]. split; [reflexivity|]. split; [reflexivity|].
  intros [H _]. vm_compute in H. discriminate H.
Qed.

(** ** Values computed on examples *)

Example toISOString_epoch :
  toISOString 0 = lit "1970-01-01T00:00:00.000Z".
Proof. reflexivity. Qed.

Example toISOString_2024 :
  toISOString 1709211045123 = lit "2024-02-29T12:50:45.123Z".
Proof. vm_compute. reflexivity. Qed.

Example toISOString_min :
  toISOString (- maxTime) = lit "-271821-04-20T00:00:00.000Z".
Proof. vm_compute. reflexivity. Qed.

Example toISOString_max :
  toISOString maxTime = lit "+275760-09-13T00:00:00.000Z".
Proof. vm_compute. reflexivity. Qed.

Example Date_parse_2024 :
  Date_parse (lit "2024-02-29T12:50:45.123Z") = Some 1709211045123.
Proof. vm_compute. reflexivity. Qed.

Example trim_spaces : trim (lit "   ") = [].
Proof. reflexivity. Qed.

Example trim_text : trim (lit "  hi there ") = lit "hi there".
Proof. reflexivity. Qed.

Example string_of_Z_clock :
  string_of_Z 1700000000000 = lit "1700000000000".
Proof. vm_compute. reflexivity. Qed.

(** Submitting an empty text or spaces changes nothing. *)
Example submit_empty_and_spaces :
  step Scenario.opened (Submit Scenario.t1 Scenario.t1) =
    Some Scenario.opened /\
  step (Scenario.world_after [ChangeInput (lit "   ")])
       (Submit Scenario.t1 Scenario.t1) =
    Some (Scenario.world_after [ChangeInput (lit "   ")]).
Proof. split; vm_compute; reflexivity. Qed.

(** The session of the specification's first scenario, on the code:
    the request is answered 200 and the sequence ends with the user
    message. *)
Example anemia_question_answered_200 :
  messages (ui (Scenario.world_after Scenario.ask_answered)) =
  [ welcomeMessage Scenario.t0;
    mkMessage (lit "1700000060000") user Scenario.question
              (DateAt Scenario.t1) ] /\
  error (ui (Scenario.world_after Scenario.ask_answered)) = None /\
  userInput (ui (Scenario.world_after Scenario.ask_answered)) = [].
Proof. vm_compute. repeat split. Qed.

(** The second scenario: the endpoint answers 500. *)
Example question_answered_500 :
  messages (ui (Scenario.world_after Scenario.refuse)) =
  [ welcomeMessage Scenario.t0;
    mkMessage (lit "1700000060000") user Scenario.question
              (DateAt Scenario.t1) ] /\
  error (ui (Scenario.world_after Scenario.refuse)) =
    Some (lit "HTTP error! status: 500") /\
  error_shown (ui (Scenario.world_after Scenario.refuse)) = true.
Proof. vm_compute. repeat split. Qed.

(** A later failure replaces the recorded error. *)
Example second_failure_overwrites_first :
  error
    (ui (Scenario.world_after
           (Scenario.retype ++
            [Submit Scenario.t2 Scenario.t2;
             Settle 0 (Rejected (ErrorObject (lit "Failed to fetch")))]))) =
  Some (lit "Failed to fetch").
Proof. vm_compute. reflexivity. Qed.

(** A thrown value that is not an [Error]. *)
Example unknown_error_text :
  error
    (ui (Scenario.world_after
           (Scenario.ask ++ [Settle 0 (Rejected OtherValue)]))) =
  Some (lit "An unknown error occurred").
Proof. vm_compute. reflexivity. Qed.

(** When the [fetch] itself rejects, the buffer is never emptied. *)
Example input_kept_on_network_error :
  userInput
    (ui (Scenario.world_after
           (Scenario.ask ++
            [Settle 0 (Rejected (ErrorObject (lit "Failed to fetch")))]))) =
  Scenario.question.
Proof. vm_compute. reflexivity. Qed.

(** What the history key holds after the first submission. *)
Example history_key_after_question :
  healthcare_chat_history (storage (Scenario.world_after Scenario.ask)) =
  Some
    [ mkStoredMessage welcome_id assistant welcome_content
        (Some (lit "2023-11-14T22:13:20.000Z"));
      mkStoredMessage (lit "1700000060000") user Scenario.question
        (Some (lit "2023-11-14T22:14:20.000Z")) ].
Proof. vm_compute. reflexivity. Qed.

(* ================================================================== *)
(** * Further properties of the component *)

(** ** What the effects and the continuation leave alone *)

(** The load effect writes the name, the avatars and the messages
    only. *)
Lemma load_effect_frame now us ai s ls :
  let s' := fst (load_effect now us ai s ls) in
  editingName s' = editingName s /\
  tempUserName s' = tempUserName s /\
  userInput s' = userInput s /\
  connectionStatus s' = connectionStatus s /\
  selectedModel s' = selectedModel s /\
  error s' = error s.
Proof.
  unfold load_effect.
  destruct ls as [[[|? ?]|] [[|? ?]|] [[|? ?]|] [?|]]; cbn;
    repeat split.
Qed.

Lemma mount_inflight now us ai ls : inflight (mount now us ai ls) = [].
Proof. unfold mount. now destruct (load_effect _ _ _ _ _). Qed.

Lemma mount_ui now us ai ls :
  ui (mount now us ai ls) = fst (load_effect now us ai initial_state ls).
Proof. unfold mount. now destruct (load_effect _ _ _ _ _). Qed.

(** The continuation of [handleSubmit] writes the input buffer, the
    error and the loading flag only. *)
Lemma handleSubmit_resume_frame o s :
  let s' := handleSubmit_resume o s in
  userName s' = userName s /\
  userAvatar s' = userAvatar s /\
  aiAvatar s' = aiAvatar s /\
  messages s' = messages s /\
  connectionStatus s' = connectionStatus s /\
  selectedModel s' = selectedModel s.
Proof.
  destruct o as [st|e]; cbn [handleSubmit_resume];
    [destruct (response_ok st)|]; cbn; repeat split.
Qed.

Lemma handleSubmit_resume_error o s :
  error (handleSubmit_resume o s) =
  if failed o then Some (failure_text o) else error s.
Proof.
  destruct o as [st|e]; cbn [handleSubmit_resume failed];
    [destruct (response_ok st)|]; reflexivity.
Qed.

(** ** A cell that follows the events *)

(** A quantity of the world that every event updates by [g] is, after
    a run, the fold of [g] over the events. *)
Section RunFold.

Variable A : Type.
Variable f : World -> A.
Variable g : A -> Event -> A.
Hypothesis f_step : forall w e w', step w e = Some w' -> f w' = g (f w) e.

Lemma run_fold es : forall w w',
  run w es = Some w' -> f w' = fold_left g es (f w).
Proof.
  induction es as [|e es IH]; intros w w' H; cbn in H.
  - now injection H as <-.
  - destruct (step w e) as [w1|] eqn:E; [|discriminate].
    cbn [fold_left]. rewrite <- (f_step _ _ _ E). now apply IH.
Qed.

End RunFold.

Lemma step_status w e w' :
  step w e = Some w' ->
  connectionStatus (ui w') =
  Session.status_event (connectionStatus (ui w)) e.
Proof.
  intros H. step_cases H; try reflexivity.
  - apply handleSubmit_resume_frame.
  - rewrite mount_ui. apply load_effect_frame.
Qed.

Lemma step_error w e w' :
  step w e = Some w' ->
  error (ui w') = Session.error_event (error (ui w)) e.
Proof.
  intros H. step_cases H; try reflexivity.
  - apply handleSubmit_resume_error.
  - rewrite mount_ui. apply load_effect_frame.
Qed.

Lemma step_model w e w' :
  step w e = Some w' ->
  selectedModel (ui w') = Session.model_event (selectedModel (ui w)) e.
Proof.
  intros H. step_cases H; try reflexivity.
  - apply handleSubmit_resume_frame.
  - rewrite mount_ui. apply load_effect_frame.
Qed.

Lemma first_activation_cells now us ai :
  let s := ui (first_activation now us ai) in
  connectionStatus s = checking /\ error s = None /\
  selectedModel s = ollama.
Proof.
  cbv zeta. unfold first_activation. rewrite mount_ui.
  pose proof (load_effect_frame now us ai initial_state empty_storage)
    as (_ & _ & _ & H1 & H2 & H3).
  cbv zeta in H1, H2, H3. rewrite H1, H2, H3. repeat split.
Qed.

(** X3.  The error shown is the text of the latest failed request since
    the page was loaded, whatever happened after it: a success, a
    cleared chat, a new submission or a change of backend leaves it in
    place, and only a reload removes it. *)
Theorem error_is_latest_failure now userSeed aiSeed es w :
  run (first_activation now userSeed aiSeed) es = Some w ->
  error (ui w) = fold_left Session.error_event es None.
Proof.
  intros H.
  rewrite (run_fold _ (fun w => error (ui w)) _ step_error _ _ _ H).
  now rewrite (proj1 (proj2 (first_activation_cells now userSeed aiSeed))).
Qed.

(** X3, on the session where a 500 is followed by a 200. *)
Lemma error_is_latest_failure_witness :
  run (first_activation Scenario.t0 417 902) Scenario.answer =
    Some (Scenario.world_after Scenario.answer) /\
  error (ui (Scenario.world_after Scenario.answer)) =
    Some (lit "HTTP error! status: 500").
Proof.
  assert (H : run (first_activation Scenario.t0 417 902) Scenario.answer =
              Some (Scenario.world_after Scenario.answer))
    by (vm_compute; reflexivity).
  split; [exact H|].
  exact (error_is_latest_failure _ _ _ _ _ H).
Defined.

(** X8.  The connection status is the outcome of the latest probe since
    the page was loaded, and checking until the first one ends; no other
    handler touches it.  The alert and the red badge appear exactly in
    state disconnected, and the badge reads connected exactly in state
    connected, so before the first probe ends the badge reads
    disconnected, in green, with no alert. *)
Theorem status_is_latest_probe now userSeed aiSeed es w :
  run (first_activation now userSeed aiSeed) es = Some w ->
  let st := fold_left Session.status_event es checking in
  connectionStatus (ui w) = st /\
  View.alert_shown (ui w) =
    (match st with disconnected => true | _ => false end) /\
  View.badge_red (ui w) = View.alert_shown (ui w) /\
  View.badge_label (ui w) =
    (match st with
     | connected => View.label_connected
     | _ => View.label_disconnected
     end).
Proof.
  intros H st.
  assert (E : connectionStatus (ui w) = st).
  { rewrite (run_fold _ (fun w => connectionStatus (ui w)) _ step_status
               _ _ _ H).
    unfold st.
    now rewrite (proj1 (first_activation_cells now userSeed aiSeed)). }
  unfold View.alert_shown, View.badge_red, View.badge_label.
  rewrite E. repeat split.
Qed.

(** X8, on a session whose probes end thrown, online, then offline. *)
Lemma status_is_latest_probe_witness :
  run (first_activation Scenario.t0 417 902) Session.probing =
    Some (Scenario.world_after Session.probing) /\
  connectionStatus (ui (Scenario.world_after Session.probing)) =
    disconnected /\
  View.alert_shown (ui (Scenario.world_after Session.probing)) = true.
Proof.
  assert (H : run (first_activation Scenario.t0 417 902) Session.probing =
              Some (Scenario.world_after Session.probing))
    by (vm_compute; reflexivity).
  destruct (status_is_latest_probe _ _ _ _ _ H) as (E1 & E2 & _).
  split; [exact H|]. split; [exact E1 | exact E2].
Defined.

(** X13.  The selected backend is the latest selection since the page
    was loaded, and the local one until the first selection: it is not
    kept in storage, and neither a settled request nor a cleared chat
    changes it.  Selecting a backend leaves the requests in flight as
    they are, with the [model_type] they were sent with. *)
Theorem model_is_latest_selection now userSeed aiSeed es w :
  run (first_activation now userSeed aiSeed) es = Some w ->
  selectedModel (ui w) = fold_left Session.model_event es ollama /\
  (forall m w', step w (SelectModel m) = Some w' ->
     inflight w' = inflight w /\ messages (ui w') = messages (ui w) /\
     storage w' = storage w).
Proof.
  intros H. split.
  - rewrite (run_fold _ (fun w => selectedModel (ui w)) _ step_model
               _ _ _ H).
    now rewrite (proj2 (proj2 (first_activation_cells now userSeed aiSeed))).
  - intros m w' E. step_cases E. repeat split.
Qed.

(** X13, on a session that selects the cloud backend and then sends a
    request. *)
Lemma model_is_latest_selection_witness :
  run (first_activation Scenario.t0 417 902) Session.probing =
    Some (Scenario.world_after Session.probing) /\
  selectedModel (ui (Scenario.world_after Session.probing)) = openrouter.
Proof.
  assert (H : run (first_activation Scenario.t0 417 902) Session.probing =
              Some (Scenario.world_after Session.probing))
    by (vm_compute; reflexivity).
  split; [exact H|].
  exact (proj1 (model_is_latest_selection _ _ _ _ _ H)).
Defined.

(** ** The shape of every reachable world *)

Lemma Forall_remove_nth {A} (P : A -> Prop) k l :
  Forall P l -> Forall P (remove_nth k l).
Proof.
  intros H. unfold remove_nth. apply Forall_app. split.
  - rewrite <- (firstn_skipn k l) in H. now apply Forall_app in H.
  - rewrite <- (firstn_skipn (S k) l) in H. now apply Forall_app in H.
Qed.

Lemma welcome_then_users_welcome now :
  Session.welcome_then_users [welcomeMessage now].
Proof. exists now, []. split; [reflexivity | constructor]. Qed.

Lemma welcome_then_users_snoc ms m :
  Session.welcome_then_users ms ->
  role m = user -> blank (content m) = false ->
  Session.welcome_then_users (ms ++ [m]).
Proof.
  intros (now & rest & -> & Hr) Hu Hb. exists now, (rest ++ [m]).
  split; [reflexivity|]. apply Forall_app. split; [exact Hr|].
  constructor; [split; assumption | constructor].
Qed.

Lemma role_content_users rest :
  Forall (fun m => role m = user /\ blank (content m) = false) rest ->
  map role_content rest = map (pair user) (map content rest) /\
  Forall (fun c => blank c = false) (map content rest).
Proof.
  induction 1 as [|m rest [Hu Hb] _ [IH1 IH2]]; cbn [map].
  - split; [reflexivity | constructor].
  - split.
    + unfold role_content at 1. now rewrite Hu, IH1.
    + constructor; assumption.
Qed.

Lemma welcome_then_user_turns_body ms m mt :
  Session.welcome_then_users ms ->
  role m = user -> blank (content m) = false ->
  Session.welcome_then_user_turns
    (mkRequestBody (map role_content (ms ++ [m])) mt).
Proof.
  intros (now & rest & -> & Hr) Hu Hb.
  destruct (role_content_users rest Hr) as [E F].
  exists (map content rest ++ [content m]). cbn [body_messages].
  split; [|split].
  - cbn [app map]. rewrite !map_app, E. cbn [map].
    unfold role_content at 2. rewrite Hu. reflexivity.
  - now destruct (map content rest).
  - apply Forall_app. split; [exact F|]. constructor; [exact Hb|constructor].
Qed.

Lemma shaped_first_activation now userSeed aiSeed :
  valid_time now = true ->
  Session.shaped (first_activation now userSeed aiSeed).
Proof.
  intros Hv. constructor.
  - now apply in_sync_first_activation.
  - apply welcome_then_users_welcome.
  - reflexivity.
  - exists userSeed, aiSeed. split; reflexivity.
  - constructor.
Qed.

Lemma step_shaped w e w' :
  Session.shaped w -> step w e = Some w' -> Session.shaped w'.
Proof.
  intros [Hs Hm Hn Ha Hi] H.
  pose proof (step_in_sync _ _ _ Hs H) as Hs'.
  constructor; [exact Hs'| | | |]; clear Hs'.
  all: step_cases H; cbn [ui inflight messages userName userAvatar aiAvatar
    setUserInput setMessages setSelectedModel setEditingName setTempUserName
    setUserName setUserAvatar setAiAvatar setConnectionStatus]; try assumption.
  all: try match goal with
    | |- context [handleSubmit_resume ?o ?s] =>
        pose proof (handleSubmit_resume_frame o s) as F; cbv zeta in F;
        destruct F as (E1 & E2 & E3 & E4 & _);
        rewrite ?E1, ?E2, ?E3, ?E4; assumption
    | |- context [inflight (mount _ _ _ _)] =>
        rewrite mount_inflight; constructor
    | |- context [mount ?n ?u ?a (storage ?w)] =>
        pose proof (mount_in_sync w n u a Hs) as F; cbv zeta in F;
        destruct F as (E1 & E2 & E3 & E4 & _);
        rewrite ?E1, ?E2, ?E3, ?E4; assumption
    end.
  - now apply welcome_then_users_snoc.
  - apply welcome_then_users_welcome.
  - eauto.
  - apply Forall_app. split; [exact Hi|]. constructor; [|constructor].
    now apply welcome_then_user_turns_body.
  - now apply Forall_remove_nth.
Qed.

Lemma reachable_shaped w : reachable w -> Session.shaped w.
Proof.
  intros (now & us & ai & es & Hv & Hr).
  eapply (run_invariant _ step_shaped); [|exact Hr].
  now apply shaped_first_activation.
Qed.

(** X2.  In every state the component can reach, the messages shown are
    a welcome message followed by user messages only, each with a text
    that is not blank: the sequence is never empty, and no reply of the
    assistant is ever added to it, whatever the requests come to. *)
Theorem only_welcome_and_user_messages w :
  reachable w ->
  Session.welcome_then_users (messages (ui w)) /\
  (forall m, In m (messages (ui w)) -> role m = assistant ->
     id m = welcome_id /\ content m = welcome_content) /\
  (forall m, In m (tl (messages (ui w))) ->
     role m = user /\ blank (content m) = false).
Proof.
  intros Hr. destruct (reachable_shaped w Hr) as [_ Hm _ _ _].
  split; [exact Hm|]. destruct Hm as (now & rest & -> & Hrest).
  rewrite Forall_forall in Hrest. split.
  - intros m [<-|Hin] Ha; [split; reflexivity|].
    destruct (Hrest m Hin) as [Hu _]. rewrite Hu in Ha. discriminate.
  - intros m Hin. now apply Hrest.
Qed.

(** X2, after a request answered 500 and one answered 200. *)
Lemma only_welcome_and_user_messages_witness :
  reachable (Scenario.world_after Scenario.answer) /\
  Session.welcome_then_users
    (messages (ui (Scenario.world_after Scenario.answer))).
Proof.
  assert (Hr : reachable (Scenario.world_after Scenario.answer))
    by (apply reachable_world_after; vm_compute; discriminate).
  split; [exact Hr|].
  exact (proj1 (only_welcome_and_user_messages _ Hr)).
Defined.

(** X5.  In every state the component can reach the display name is not
    blank: it is the default one until a name that is not blank is
    saved, and from then on the name the storage holds. *)
Theorem display_name_never_blank w :
  reachable w ->
  blank (userName (ui w)) = false /\
  (healthcare_chat_username (storage w) = None /\
   userName (ui w) = lit "User" \/
   healthcare_chat_username (storage w) = Some (userName (ui w))).
Proof.
  intros Hr. destruct (reachable_shaped w Hr) as [Hs _ Hn _ _].
  split; [exact Hn|]. destruct Hs as [_ _ _ _ _ Hu].
  destruct (healthcare_chat_username (storage w)) as [n|].
  - right. destruct Hu as [-> _]. reflexivity.
  - left. split; [reflexivity | exact Hu].
Qed.

(** X5, after a name was saved and the page loaded again. *)
Lemma display_name_never_blank_witness :
  reachable (Scenario.world_after Scenario.long_session) /\
  blank (userName (ui (Scenario.world_after Scenario.long_session))) = false.
Proof.
  assert (Hr : reachable (Scenario.world_after Scenario.long_session))
    by (apply reachable_world_after; vm_compute; discriminate).
  split; [exact Hr|].
  exact (proj1 (display_name_never_blank _ Hr)).
Defined.

(** X6.  In every state the component can reach both avatars are
    generated ones, each the address of its own style followed by a
    seed in decimal, and the storage holds the two addresses shown. *)
Theorem avatars_generated_and_stored w :
  reachable w ->
  exists userSeed aiSeed,
    userAvatar (ui w) = user_avatar_url userSeed /\
    aiAvatar (ui w) = ai_avatar_url aiSeed /\
    healthcare_user_avatar (storage w) = Some (user_avatar_url userSeed) /\
    healthcare_ai_avatar (storage w) = Some (ai_avatar_url aiSeed).
Proof.
  intros Hr. destruct (reachable_shaped w Hr) as [Hs _ _ Ha _].
  destruct Ha as (us & ai & Eu & Ea). exists us, ai.
  destruct Hs as [_ _ _ [Su _] [Sa _] _].
  rewrite Su, Sa, Eu, Ea. repeat split.
Qed.

(** X6, after new avatars were generated and the page loaded again. *)
Lemma avatars_generated_and_stored_witness :
  reachable (Scenario.world_after Scenario.long_session) /\
  exists userSeed aiSeed,
    userAvatar (ui (Scenario.world_after Scenario.long_session)) =
      user_avatar_url userSeed /\
    aiAvatar (ui (Scenario.world_after Scenario.long_session)) =
      ai_avatar_url aiSeed.
Proof.
  assert (Hr : reachable (Scenario.world_after Scenario.long_session))
    by (apply reachable_world_after; vm_compute; discriminate).
  split; [exact Hr|].
  destruct (avatars_generated_and_stored _ Hr) as (us & ai & Eu & Ea & _).
  exists us, ai. split; [exact Eu | exact Ea].
Defined.

(** X7.  Every request the component has handed to [fetch] carries the
    welcome text as its first and only assistant turn, followed by one
    or more user turns, none of them blank. *)
Theorem requests_are_welcome_then_user_turns w :
  reachable w -> Forall Session.welcome_then_user_turns (inflight w).
Proof.
  intros Hr. now destruct (reachable_shaped w Hr).
Qed.

(** X7, with two requests in flight. *)
Lemma requests_are_welcome_then_user_turns_witness :
  reachable (Scenario.world_after Scenario.burst) /\
  List.length (inflight (Scenario.world_after Scenario.burst)) = 2%nat /\
  Forall Session.welcome_then_user_turns
    (inflight (Scenario.world_after Scenario.burst)).
Proof.
  assert (Hr : reachable (Scenario.world_after Scenario.burst))
    by (apply reachable_world_after; vm_compute; discriminate).
  split; [exact Hr|]. split; [vm_compute; reflexivity|].
  exact (requests_are_welcome_then_user_turns _ Hr).
Defined.

(** X4.  Loading the page again over the storage of a reachable state
    gives the same messages, name and avatars and the same storage,
    with every other cell back at its initial value: the text being
    typed, the recorded error, the selected backend, the connection
    status and the name editor are forgotten, and so are the requests in
    flight.  Neither the clock nor the random seeds of the new page
    matter. *)
Theorem reload_forgets_all_but_the_stored w now userSeed aiSeed :
  reachable w ->
  mount now userSeed aiSeed (storage w) = Session.reloaded w.
Proof.
  intros Hr. pose proof (reachable_in_sync w Hr) as Hs.
  pose proof (mount_in_sync w now userSeed aiSeed Hs) as F.
  cbv zeta in F. destruct F as (E1 & E2 & E3 & E4 & E5).
  pose proof (load_effect_frame now userSeed aiSeed initial_state
                (storage w)) as G.
  cbv zeta in G. rewrite <- mount_ui in G.
  destruct G as (G1 & G2 & G3 & G4 & G5 & G6).
  pose proof (mount_isLoading now userSeed aiSeed (storage w)) as L.
  pose proof (mount_inflight now userSeed aiSeed (storage w)) as I.
  unfold Session.reloaded.
  destruct (mount now userSeed aiSeed (storage w)) as [s ls fl].
  destruct s. cbn in *. now subst.
Qed.

(** X4, on a session left with an error recorded and a text typed. *)
Lemma reload_forgets_all_but_the_stored_witness :
  reachable (Scenario.world_after Scenario.retype) /\
  mount 0 0 0 (storage (Scenario.world_after Scenario.retype)) =
    Session.reloaded (Scenario.world_after Scenario.retype).
Proof.
  assert (Hr : reachable (Scenario.world_after Scenario.retype))
    by (apply reachable_world_after; vm_compute; discriminate).
  split; [exact Hr|].
  exact (reload_forgets_all_but_the_stored _ 0 0%N 0%N Hr).
Defined.

(** ** Submissions that are turned down *)

(** X1.  [handleSubmit] leaves the component as it was exactly when the
    text is made of white space only (the empty text included),
    whatever the clock reads and whatever is in flight. *)
Theorem submission_ignored_iff_white_space w idNow tsNow :
  step w (Submit idNow tsNow) = Some w <->
  forallb is_white_space (userInput (ui w)) = true.
Proof.
  rewrite <- blank_iff. split; [|apply step_submit_blank].
  intros H. destruct (blank (userInput (ui w))) eqn:Hb; [reflexivity|].
  pose proof (step_submit_accepted _ _ _ _ Hb H) as F. cbv zeta in F.
  destruct F as [E _]. apply (f_equal messages) in E.
  cbn [messages setMessages] in E.
  apply (f_equal (@List.length Message)) in E.
  rewrite length_app in E. cbn [List.length] in E. lia.
Qed.

(** ** The health route and the status panel *)

(** X10.  The health route answers online exactly when Ollama's own
    health URL answered with an ok status, and offline otherwise; the
    answer carries a message exactly when the upstream [fetch] threw.
    The chat component that reads the answer ends connected in the
    first case and disconnected in the others, never checking. *)
Theorem GET_reports_upstream r :
  (status (GET r) = lit "online" <-> r = UpstreamResponse true) /\
  (status (GET r) = lit "offline" <-> r <> UpstreamResponse true) /\
  (message (GET r) <> None <-> r = UpstreamThrew) /\
  (checkOllamaStatus (probe_of_GET r) = connected <->
   r = UpstreamResponse true) /\
  (checkOllamaStatus (probe_of_GET r) = disconnected <->
   r <> UpstreamResponse true).
Proof.
  assert (N : lit "online" <> lit "offline")
    by (intros H; apply lit_inj in H; discriminate).
  rewrite checkOllamaStatus_of_GET.
  destruct r as [[|]|]; cbn [GET status message];
    repeat split; intros H; try reflexivity; try congruence;
    try (exfalso; apply H; reflexivity).
Qed.

(** X9.  The status panel sets its flags only when both probes read a
    body that is not [null]; the flag of a backend is then on exactly
    when its own body has the status online.  So a flag is on exactly
    when that holds of its own probe and the other probe neither threw
    nor read [null]; in every other case both flags stay off.  Behind
    the health route, the Ollama flag is on exactly when Ollama's
    health URL answered ok and the OpenRouter probe read a body that is
    not [null]. *)
Theorem panel_flags ollamaProbe openRouterProbe :
  let st := ApiStatus.after_mount ollamaProbe openRouterProbe in
  (ApiStatus.ollama st = true <->
   ollamaProbe = ProbeData (Some (lit "online")) /\
   exists d, openRouterProbe = ProbeData d) /\
  (ApiStatus.openrouter st = true <->
   openRouterProbe = ProbeData (Some (lit "online")) /\
   exists d, ollamaProbe = ProbeData d) /\
  ((ollamaProbe = ProbeThrew \/ ollamaProbe = ProbeNull \/
    openRouterProbe = ProbeThrew \/ openRouterProbe = ProbeNull) <->
   ~ exists d1 d2,
       ollamaProbe = ProbeData d1 /\ openRouterProbe = ProbeData d2) /\
  ((~ exists d1 d2,
        ollamaProbe = ProbeData d1 /\ openRouterProbe = ProbeData d2) ->
   st = ApiStatus.initial) /\
  (forall r,
     ApiStatus.ollama
       (ApiStatus.after_mount (probe_of_GET r) openRouterProbe) = true <->
     r = UpstreamResponse true /\ exists d, openRouterProbe = ProbeData d).
Proof.
  cbv zeta. unfold ApiStatus.after_mount, ApiStatus.checkStatus.
  split; [|split; [|split; [|split]]].
  - destruct ollamaProbe as [| |d1], openRouterProbe as [| |d2];
      cbn [ApiStatus.ollama ApiStatus.initial];
      try (split; [discriminate | intros [? [? ?]]; discriminate]).
    rewrite is_online_iff. split.
    + intros ->. split; [reflexivity | now exists d2].
    + intros [E _]. now injection E.
  - destruct ollamaProbe as [| |d1], openRouterProbe as [| |d2];
      cbn [ApiStatus.openrouter ApiStatus.initial];
      try (split; [discriminate | intros [? [? ?]]; discriminate]).
    rewrite is_online_iff. split.
    + intros ->. split; [reflexivity | now exists d1].
    + intros [E _]. now injection E.
  - split.
    + intros H (d1 & d2 & -> & ->).
      destruct H as [H|[H|[H|H]]]; discriminate H.
    + intros H.
      destruct ollamaProbe as [| |d1]; [now left | now right; left |].
      destruct openRouterProbe as [| |d2];
        [now right; right; left | now right; right; right |].
      exfalso. apply H. now exists d1, d2.
  - intros H.
    destruct ollamaProbe as [| |d1]; try reflexivity.
    destruct openRouterProbe as [| |d2]; try reflexivity.
    exfalso. apply H. now exists d1, d2.
  - intros r. unfold probe_of_GET.
    destruct openRouterProbe as [| |d2];
      cbn [ApiStatus.ollama ApiStatus.initial];
      try (split; [discriminate | intros [_ [? ?]]; discriminate]).
    rewrite is_online_iff. split.
    + intros E. injection E as E. split; [|now exists d2].
      destruct r as [[|]|]; [reflexivity | |]; cbv in E; discriminate E.
    + intros [-> _]. reflexivity.
Qed.

(** X9, on an Ollama probe that reads the body [null] while the
    OpenRouter probe reads online: both flags stay off. *)
Lemma panel_flags_witness :
  ApiStatus.after_mount ProbeNull (ProbeData (Some (lit "online"))) =
  ApiStatus.initial.
Proof.
  destruct (panel_flags ProbeNull (ProbeData (Some (lit "online"))))
    as (_ & _ & _ & H & _).
  apply H. intros (d1 & d2 & E & _). discriminate E.
Defined.

(** ** Loading over a storage the component did not write *)

Lemma load_effect_messages now us ai s ls :
  messages (fst (load_effect now us ai s ls)) =
  match healthcare_chat_history ls with
  | Some stored => map (revive_message now) stored
  | None => [welcomeMessage now]
  end.
Proof.
  unfold load_effect.
  destruct ls as [[[|? ?]|] [[|? ?]|] [[|? ?]|] [?|]]; reflexivity.
Qed.

Lemma mount_messages now us ai ls :
  messages (ui (mount now us ai ls)) =
  match healthcare_chat_history ls with
  | Some stored => map (revive_message now) stored
  | None => [welcomeMessage now]
  end.
Proof. rewrite mount_ui. apply load_effect_messages. Qed.

(** What mounting leaves in the storage and shows of the profile. *)
Lemma mount_storage now userSeed aiSeed ls :
  let w := mount now userSeed aiSeed ls in
  healthcare_chat_history (storage w) =
    Some (stringify_messages (messages (ui w))) /\
  healthcare_user_avatar (storage w) = Some (userAvatar (ui w)) /\
  healthcare_ai_avatar (storage w) = Some (aiAvatar (ui w)) /\
  truthy (userAvatar (ui w)) = true /\
  truthy (aiAvatar (ui w)) = true /\
  healthcare_chat_username (storage w) = healthcare_chat_username ls /\
  userName (ui w) =
    match healthcare_chat_username ls with
    | Some (c :: r) => c :: r
    | _ => lit "User"
    end /\
  userAvatar (ui w) =
    match healthcare_user_avatar ls with
    | Some (c :: r) => c :: r
    | _ => user_avatar_url userSeed
    end /\
  aiAvatar (ui w) =
    match healthcare_ai_avatar ls with
    | Some (c :: r) => c :: r
    | _ => ai_avatar_url aiSeed
    end.
Proof.
  cbv zeta. unfold mount, load_effect.
  destruct ls as [[[|? ?]|] [[|? ?]|] [[|? ?]|] [[|? ?]|]];
    cbn; repeat split.
Qed.

(** The message shown for a stored entry whose timestamp is missing or
    written by [toISOString]. *)
Lemma revive_written_or_missing now msg :
  valid_time now = true ->
  Session.written_or_missing (stored_timestamp msg) ->
  Session.timestamp_loaded now msg (revive_message now msg) /\
  holds_instant (timestamp (revive_message now msg)).
Proof.
  intros Hv H. unfold Session.timestamp_loaded, revive_message.
  cbn [timestamp].
  destruct H as [E|[E|(t & Ht & E)]]; rewrite E; cbn [if_truthy truthy].
  - split; [left; split; [now left | reflexivity] | exact Hv].
  - split; [left; split; [now right | reflexivity] | exact Hv].
  - unfold if_truthy. rewrite toISOString_truthy.
    unfold Date_of_string. rewrite (Date_parse_toISOString t Ht).
    split; [right; exists t; repeat split; assumption | exact Ht].
Qed.

Lemma revive_all_written_or_missing now stored :
  valid_time now = true ->
  Forall (fun msg => Session.written_or_missing (stored_timestamp msg))
    stored ->
  Forall2 (Session.timestamp_loaded now) stored
    (map (revive_message now) stored) /\
  Forall (fun m => holds_instant (timestamp m))
    (map (revive_message now) stored).
Proof.
  intros Hv. induction 1 as [|msg stored H _ [IH1 IH2]]; cbn [map].
  - split; constructor.
  - destruct (revive_written_or_missing now msg Hv H) as [H1 H2].
    split; constructor; assumption.
Qed.



(** X12.  Mounting the component over a storage whose name and avatar
    keys hold any text or none, and whose history key is absent or
    holds an array of messages with timestamps missing or written by
    [toISOString]: a stored avatar that is not empty is shown, one
    that is absent or empty is replaced by a generated one, and both
    avatar keys end up holding the avatars shown; the name key is not
    written, and the name shown is the stored one unless that is absent
    or empty, also when it is blank; no message is shown exactly when
    the history key holds an empty array, in which case no welcome
    message is added; every message shown carries a time, and the
    history key ends up holding the messages shown. *)
Theorem mount_over_foreign_storage now userSeed aiSeed ls :
  valid_time now = true ->
  Session.readable ls ->
  let w := mount now userSeed aiSeed ls in
  healthcare_user_avatar (storage w) = Some (userAvatar (ui w)) /\
  healthcare_ai_avatar (storage w) = Some (aiAvatar (ui w)) /\
  truthy (userAvatar (ui w)) = true /\
  truthy (aiAvatar (ui w)) = true /\
  userAvatar (ui w) =
    match healthcare_user_avatar ls with
    | Some (c :: r) => c :: r
    | _ => user_avatar_url userSeed
    end /\
  aiAvatar (ui w) =
    match healthcare_ai_avatar ls with
    | Some (c :: r) => c :: r
    | _ => ai_avatar_url aiSeed
    end /\
  healthcare_chat_username (storage w) = healthcare_chat_username ls /\
  userName (ui w) =
    match healthcare_chat_username ls with
    | Some (c :: r) => c :: r
    | _ => lit "User"
    end /\
  (messages (ui w) = [] <-> healthcare_chat_history ls = Some []) /\
  Forall (fun m => holds_instant (timestamp m)) (messages (ui w)) /\
  healthcare_chat_history (storage w) =
    Some (stringify_messages (messages (ui w))).
Proof.
  intros Hv Hr. cbv zeta.
  pose proof (mount_storage now userSeed aiSeed ls) as S.
  cbv zeta in S.
  destruct S as (Sh & Su & Sa & Tu & Ta & Sn & En & Eu & Ea).
  repeat (split; [assumption|]).
  split; [|split; [|exact Sh]]; rewrite mount_messages.
  - destruct (healthcare_chat_history ls) as [[|? ?]|]; cbn [map];
      split; congruence.
  - destruct (healthcare_chat_history ls) as [stored|] eqn:Hh.
    + now apply revive_all_written_or_missing, Hr.
    + constructor; [exact Hv | constructor].
Qed.

(** X12, on a storage whose name key holds a space and whose history
    key holds an empty array: the chat is empty and the name blank. *)
Lemma mount_over_foreign_storage_witness :
  let ls := mkLocalStorage (Some (lit " ")) None None (Some []) in
  let w := mount Scenario.t0 1 2 ls in
  Session.readable ls /\
  messages (ui w) = [] /\ blank (userName (ui w)) = true /\
  userAvatar (ui w) = user_avatar_url 1.
Proof.
  intros ls w.
  assert (Hv : valid_time Scenario.t0 = true) by reflexivity.
  assert (Hr : Session.readable ls).
  { intros stored H. injection H as <-. constructor. }
  pose proof (mount_over_foreign_storage Scenario.t0 1 2 ls Hv Hr) as F.
  cbv zeta in F.
  destruct F as (_ & _ & _ & _ & Eu & _ & _ & En & [_ Em] & _).
  split; [exact Hr|]. split; [exact (Em eq_refl)|].
  split; [|exact Eu].
  fold w in En. rewrite En. vm_compute. reflexivity.
Defined.

(** ** The input buffer *)

Lemma handleSubmit_resume_input o s :
  userInput (handleSubmit_resume o s) =
  match o with
  | Response _ => []
  | Rejected _ => userInput s
  end.
Proof.
  destruct o as [st|e]; cbn [handleSubmit_resume];
    [destruct (response_ok st)|]; reflexivity.
Qed.

Lemma step_input w e w' :
  step w e = Some w' ->
  userInput (ui w') = Session.input_event (userInput (ui w)) e.
Proof.
  intros H. step_cases H; try reflexivity.
  - apply handleSubmit_resume_input.
  - rewrite mount_ui. apply load_effect_frame.
Qed.

(** X14.  The input buffer holds the text typed last, until a response
    arrives: a response to any request in flight, whatever its status,
    empties the buffer, so a text typed after the request was sent is
    lost with it.  A submission and a rejected [fetch] leave the buffer
    as it is. *)
Theorem input_is_latest_text_or_emptied now userSeed aiSeed es w :
  run (first_activation now userSeed aiSeed) es = Some w ->
  userInput (ui w) = fold_left Session.input_event es [].
Proof.
  intros H.
  rewrite (run_fold _ (fun w => userInput (ui w)) _ step_input _ _ _ H).
  reflexivity.
Qed.

(** X14, on a session where a second question is typed while the first
    request is in flight. *)
Lemma input_is_latest_text_or_emptied_witness :
  run (first_activation Scenario.t0 417 902) Session.typed_while_waiting =
    Some (Scenario.world_after Session.typed_while_waiting) /\
  userInput (ui (Scenario.world_after Session.typed_while_waiting)) = [].
Proof.
  assert (H : run (first_activation Scenario.t0 417 902)
                Session.typed_while_waiting =
              Some (Scenario.world_after Session.typed_while_waiting))
    by (vm_compute; reflexivity).
  split; [exact H|].
  exact (input_is_latest_text_or_emptied _ _ _ _ _ H).
Defined.
